(** * WiFi LED strip driver for SMD 5050 strips: the lighting core of [src/main.cpp]

    A shallow embedding of the sketch's lighting logic: the colour mixer,
    the two button callbacks, the potentiometer handler, the MQTT / Blynk /
    serial command handlers, the telemetry snapshot and the control loop.
    Integers of the sketch ([uint8_t], [uint16_t], [int32_t], [uint32_t])
    are [Z] with their wrap-around written out; Arduino [String]s are
    [string]; the global variables of the sketch are one record that every
    function threads through. *)

From Stdlib Require Import ZArith Lia Bool List String Ascii.
Import ListNotations.

Local Open Scope string_scope.
Local Open Scope Z_scope.

(** ** Machine integers *)

(** Conversion to [uint16_t] and [uint32_t]. *)
Definition u16 (z : Z) : Z := z mod 65536.
Definition u32 (z : Z) : Z := z mod 4294967296.

(** Saturation of a value to the closed range [lo..hi]. *)
Definition clamp (lo hi v : Z) : Z := Z.max lo (Z.min hi v).

(** ** Colours *)

(** [RGBColor] of LedStripRGB.h: three 8-bit components. *)
Record RGBColor : Type := mkRGB { red : Z; green : Z; blue : Z }.

Definition valid_rgb (c : RGBColor) : Prop :=
  0 <= red c <= 255 /\ 0 <= green c <= 255 /\ 0 <= blue c <= 255.

Definition black : RGBColor := mkRGB 0 0 0.

(** Modelled from the spec: the packing of an [RGBColor] into the 24-bit
    integer 0xRRGGBB and back (LedStripRGB.h is not part of the sources;
    section 3 of the specification gives the layout). *)
Definition packRGB (c : RGBColor) : Z :=
  Z.shiftl (red c) 16 + Z.shiftl (green c) 8 + blue c.

Definition unpackRGB (v : Z) : RGBColor :=
  mkRGB (Z.land (Z.shiftr v 16) 255) (Z.land (Z.shiftr v 8) 255) (Z.land v 255).

(** ** [color_mixer] (main.cpp, lines 562-593) *)

(** The three [int32_t] locals [red], [green], [blue] as they stand just
    before the masking at line 589.  [input_value] is a [uint16_t]: its
    arithmetic is done in [int] (so [/] truncates towards zero, [Z.quot])
    and the result is converted back to [uint16_t] on assignment. *)
Definition mixer_channels (input_value : Z) : Z * Z * Z :=
  if input_value <? 341 then
    let input_value := u16 (Z.quot (input_value * 3) 4) in
    (256 - input_value, input_value, 1)
  else if input_value <? 682 then
    let input_value := u16 (Z.quot ((input_value - 341) * 3) 4) in
    (1, 256 - input_value, input_value)
  else
    let input_value := u16 (Z.quot ((input_value - 683) * 3) 4) in
    (input_value, 1, 256 - input_value).

Definition color_mixer (input_value : Z) : Z :=
  let '(red, green, blue) := mixer_channels input_value in
  let red := Z.shiftl (Z.land red 255) 16 in
  let green := Z.shiftl (Z.land green 255) 8 in
  let blue := Z.land blue 255 in
  u32 (red + green + blue).

(** The colour a mixer output denotes. *)
Definition mixed (input_value : Z) : RGBColor := unpackRGB (color_mixer input_value).

(** Largest component-wise distance between two colours. *)
Definition rgb_step (a b : RGBColor) : Z :=
  Z.max (Z.abs (red a - red b))
        (Z.max (Z.abs (green a - green b)) (Z.abs (blue a - blue b))).

(** ** Arduino [String] operations used by the sketch *)

Definition isspace (c : ascii) : bool :=
  let n := Z.of_nat (nat_of_ascii c) in
  (n =? 32) || ((9 <=? n) && (n <=? 13)).

Definition tolower (c : ascii) : ascii :=
  let n := nat_of_ascii c in
  if ((65 <=? n) && (n <=? 90))%nat then ascii_of_nat (n + 32) else c.

Fixpoint toLowerCase (s : string) : string :=
  match s with
  | EmptyString => EmptyString
  | String c r => String (tolower c) (toLowerCase r)
  end.

Fixpoint trim_left (s : string) : string :=
  match s with
  | String c r => if isspace c then trim_left r else s
  | EmptyString => EmptyString
  end.

Fixpoint trim_right (s : string) : string :=
  match s with
  | EmptyString => EmptyString
  | String c r =>
      match trim_right r with
      | EmptyString => if isspace c then EmptyString else String c EmptyString
      | r' => String c r'
      end
  end.

(** [String::trim]: drops the white space at both ends. *)
Definition trim (s : string) : string := trim_right (trim_left s).

(** [String::startsWith]. *)
Definition startsWith (s p : string) : bool := String.prefix p s.

(** [String::endsWith]: the last [length suf] characters are [suf]. *)
Definition endsWith (s suf : string) : bool :=
  let n := String.length s in
  let k := String.length suf in
  if (k <=? n)%nat then String.eqb (String.substring (n - k) k s) suf else false.

(** [String::remove(0, k)]: the string without its first [k] characters. *)
Definition remove_front (k : nat) (s : string) : string :=
  String.substring k (String.length s - k) s.

Definition digit_of (c : ascii) : option Z :=
  let n := Z.of_nat (nat_of_ascii c) in
  if (48 <=? n) && (n <=? 57) then Some (n - 48) else None.

Fixpoint read_digits (acc : Z) (s : string) : Z :=
  match s with
  | String c r =>
      match digit_of c with
      | Some d => read_digits (acc * 10 + d) r
      | None => acc
      end
  | EmptyString => acc
  end.

(** [String::toInt], that is [atol]: leading white space, an optional sign,
    then the longest run of decimal digits (0 when there is none). *)
Definition toInt (s : string) : Z :=
  match trim_left s with
  | String "-"%char r => - read_digits 0 r
  | String "+"%char r => read_digits 0 r
  | r => read_digits 0 r
  end.

Definition hex_digit (d : Z) : ascii :=
  if d <? 10 then ascii_of_nat (Z.to_nat (48 + d))
  else ascii_of_nat (Z.to_nat (87 + d)).

(** [String(unsigned char value, HEX)]: the digits [utoa] writes in base 16,
    lower case, most significant first, without leading zeros. *)
Definition String_HEX (value : Z) : string :=
  if value <? 16 then String (hex_digit value) EmptyString
  else String (hex_digit (value / 16)) (String (hex_digit (value mod 16)) EmptyString).

(** ** The LED strip objects *)

Inductive LedStripState : Type := ON | OFF.

Inductive LedStripRgbMode : Type := NORMAL | STROBE | FLASH | FADE.

Definition LedStripState_eqb (a b : LedStripState) : bool :=
  match a, b with ON, ON | OFF, OFF => true | _, _ => false end.

Definition LedStripRgbMode_eqb (a b : LedStripRgbMode) : bool :=
  match a, b with
  | NORMAL, NORMAL | STROBE, STROBE | FLASH, FLASH | FADE, FADE => true
  | _, _ => false
  end.

(** Modelled from the spec: class [LedStrip] of LedStrip.h, which is not part
    of the sources.  Section 4.2: a channel holds an on/off flag and an
    intensity; [turnOn] and [turnOff] only flip the flag, [setIntensity]
    clamps its argument to 0..255 and leaves the flag alone. *)
Module LedStrip.
Record t : Type := mk { isOn : bool; intensity : Z }.

Definition turnOn (s : t) : t := mk true (intensity s).
Definition turnOff (s : t) : t := mk false (intensity s).
Definition setIntensity (v : Z) (s : t) : t := mk (isOn s) (clamp 0 255 v).
Definition getState (s : t) : LedStripState := if isOn s then ON else OFF.
Definition getIntensity (s : t) : Z := intensity s.
End LedStrip.

(** Modelled from the spec: class [LedStripRGB] of LedStripRGB.h, which is not
    part of the sources.  Sections 3 and 4.4: the group holds an on/off flag,
    a mode, a colour, a speed and an animation phase; [setColor] clamps to 24
    bits and unpacks, [getColor] packs the stored colour whatever the flag,
    [setSpeed] clamps to a [uint16_t], [setMode] resets the phase when the
    mode changes, [nextMode] goes round Normal, Strobe, Flash, Fade. *)
Module LedStripRGB.
Record t : Type :=
    mk { isOn : bool; mode : LedStripRgbMode; color : RGBColor;
         speed : Z; animationPhase : Z }.

Definition turnOn (s : t) : t :=
    mk true (mode s) (color s) (speed s) (animationPhase s).
Definition turnOff (s : t) : t :=
    mk false (mode s) (color s) (speed s) (animationPhase s).
Definition getState (s : t) : LedStripState := if isOn s then ON else OFF.
Definition setColor (c : Z) (s : t) : t :=
    mk (isOn s) (mode s) (unpackRGB (clamp 0 16777215 c)) (speed s) (animationPhase s).
Definition getColor (s : t) : Z := packRGB (color s).
Definition setMode (m : LedStripRgbMode) (s : t) : t :=
    if LedStripRgbMode_eqb m (mode s) then s
    else mk (isOn s) m (color s) (speed s) 0.
Definition getMode (s : t) : LedStripRgbMode := mode s.
Definition next (m : LedStripRgbMode) : LedStripRgbMode :=
    match m with NORMAL => STROBE | STROBE => FLASH | FLASH => FADE | FADE => NORMAL end.
Definition nextMode (s : t) : t := setMode (next (mode s)) s.
Definition setSpeed (v : Z) (s : t) : t :=
    mk (isOn s) (mode s) (color s) (clamp 0 65535 v) (animationPhase s).
Definition getSpeed (s : t) : Z := speed s.
End LedStripRGB.

(** ** Global state of the sketch *)

(** The JSON object built by [getState]: its five fields. *)
Record Telemetry : Type :=
  mkTelemetry { white_state : string; white_intensity : Z;
                rgb_state : string; rgb_mode : string; rgb_color : string }.

(** The global variables the lighting code reads and writes, and the MQTT
    messages published so far as (topic suffix, payload), most recent first. *)
Record Globals : Type :=
  mkGlobals { led_strip_w : LedStrip.t;
              led_strip_rgb : LedStripRGB.t;
              last_color : Z;
              last_pot_color_value : Z;
              mqttLastMsg : Z;
              published : list (string * Telemetry) }.

Definition with_w (f : LedStrip.t -> LedStrip.t) (g : Globals) : Globals :=
  mkGlobals (f (led_strip_w g)) (led_strip_rgb g) (last_color g)
            (last_pot_color_value g) (mqttLastMsg g) (published g).

Definition with_rgb (f : LedStripRGB.t -> LedStripRGB.t) (g : Globals) : Globals :=
  mkGlobals (led_strip_w g) (f (led_strip_rgb g)) (last_color g)
            (last_pot_color_value g) (mqttLastMsg g) (published g).

Definition set_last_color (c : Z) (g : Globals) : Globals :=
  mkGlobals (led_strip_w g) (led_strip_rgb g) c
            (last_pot_color_value g) (mqttLastMsg g) (published g).

Definition set_last_pot_color_value (v : Z) (g : Globals) : Globals :=
  mkGlobals (led_strip_w g) (led_strip_rgb g) (last_color g)
            v (mqttLastMsg g) (published g).

Definition set_mqttLastMsg (v : Z) (g : Globals) : Globals :=
  mkGlobals (led_strip_w g) (led_strip_rgb g) (last_color g)
            (last_pot_color_value g) v (published g).

Definition publish (topic : string) (payload : Telemetry) (g : Globals) : Globals :=
  mkGlobals (led_strip_w g) (led_strip_rgb g) (last_color g)
            (last_pot_color_value g) (mqttLastMsg g) ((topic, payload) :: published g).

(** Statements run one after the other. *)
Definition andThen (f h : Globals -> Globals) : Globals -> Globals := fun g => h (f g).
Notation "f ;; h" := (andThen f h) (at level 61, left associativity).

Definition w_state (g : Globals) : LedStripState := LedStrip.getState (led_strip_w g).
Definition rgb_state_of (g : Globals) : LedStripState := LedStripRGB.getState (led_strip_rgb g).
Definition rgb_mode_of (g : Globals) : LedStripRgbMode := LedStripRGB.getMode (led_strip_rgb g).
Definition rgb_color_of (g : Globals) : Z := LedStripRGB.getColor (led_strip_rgb g).

Definition MQTT_TELEMETRY_INTERVAL : Z := 300000.
Definition THRESHOLD_FOR_TURN_ON : Z := 100.

(** Events the button handler reports to its two callbacks. *)
Inductive ButtonEvent : Type := ShortPress | LongPress.

(** Writes arriving from the Blynk application, by virtual pin. *)
Inductive BlynkWrite : Type :=
| V0 (r g b : Z)
| V1 (intensity : Z)
| V2 (option_selected : Z)
| V3 (pushed : Z)
| V8 (switch : Z).

(** What the outside world presents during one iteration of [loop]: the
    command waiting on the serial port, the event the button handler fires,
    the value [analogRead] would return, [millis()], the MQTT messages
    delivered by [mqttClient.loop()] and the writes delivered by
    [Blynk.run()]. *)
Record Env : Type :=
  mkEnv { serial : option string;
          btn_event : option ButtonEvent;
          pot : Z;
          now : Z;
          mqtt_msgs : list (string * string);
          blynk_writes : list BlynkWrite }.

Section Sketch.

(** [COLOR_WHITE] of LedStripRGB.h, whose value the sources do not give. *)
Variable COLOR_WHITE : Z.

(** The colour the animation engine of [LedStripRGB] drives in the Strobe,
    Flash and Fade modes, and its tick [LedStripRGB::loop] at a given
    [millis()]: both live in LedStripRGB.cpp, outside the sources. *)
Variable animated : LedStripRGB.t -> RGBColor.
Variable rgb_tick : Z -> LedStripRGB.t -> LedStripRGB.t.

(** Modelled from the spec: [LedStripRGB::getRGBColor], the value driven to
    the channels: zero when the group is off, the stored colour in Normal
    mode (section 4.4). *)
Definition getRGBColor (s : LedStripRGB.t) : RGBColor :=
  if LedStripRGB.isOn s then
    match LedStripRGB.mode s with
    | NORMAL => LedStripRGB.color s
    | _ => animated s
    end
  else black.

(** [getState] (lines 222-267). *)
Definition getState (g : Globals) : Telemetry :=
  let white :=
    match w_state g with
    | ON => ("ON", LedStrip.getIntensity (led_strip_w g))
    | OFF => ("OFF", 0)
    end in
  let rgb :=
    match rgb_state_of g with
    | ON => ("ON", match rgb_mode_of g with
                   | NORMAL => "NORMAL"
                   | STROBE => "STROBE"
                   | FLASH => "FLASH"
                   | FADE => "FADE"
                   end)
    | OFF => ("OFF", "")
    end in
  let c := getRGBColor (led_strip_rgb g) in
  mkTelemetry (fst white) (snd white) (fst rgb) (snd rgb)
    ("#" ++ String_HEX (red c) ++ String_HEX (green c) ++ String_HEX (blue c)).

(** [mqttSendStat] (lines 286-297) and [updateWidgets] (lines 304-328); the
    Blynk widgets mirror the same values and are not modelled. *)
Definition mqttSendStat (g : Globals) : Globals := publish "/stat/STATE" (getState g) g.

Definition updateWidgets : Globals -> Globals := mqttSendStat.

(** [mqttSendTele] (lines 269-284). *)
Definition mqttSendTele (now : Z) (g : Globals) : Globals :=
  if now - mqttLastMsg g >? MQTT_TELEMETRY_INTERVAL then
    let g := set_mqttLastMsg now g in
    publish "/tele/STATE" (getState g) g
  else g.

(** [btnModeShortPressed] (lines 503-537). *)
Definition btnModeShortPressed : Globals -> Globals :=
  (fun g =>
     if LedStripState_eqb (w_state g) OFF && LedStripState_eqb (rgb_state_of g) OFF then
       with_w LedStrip.turnOn g
     else if LedStripState_eqb (w_state g) ON && LedStripState_eqb (rgb_state_of g) OFF then
       (with_w (LedStrip.setIntensity 255) ;;
        (fun g => set_last_color (rgb_color_of g) g) ;;
        with_rgb (LedStripRGB.setColor COLOR_WHITE) ;;
        with_rgb (LedStripRGB.setMode NORMAL) ;;
        with_rgb LedStripRGB.turnOn) g
     else if LedStripRgbMode_eqb (rgb_mode_of g) NORMAL && (rgb_color_of g =? COLOR_WHITE) then
       (with_w LedStrip.turnOff ;;
        (fun g => with_rgb (LedStripRGB.setColor (last_color g)) g) ;;
        with_rgb LedStripRGB.turnOn) g
     else if LedStripRgbMode_eqb (rgb_mode_of g) FADE then
       (with_w LedStrip.turnOn ;;
        with_rgb LedStripRGB.nextMode ;;
        with_rgb LedStripRGB.turnOff) g
     else
       with_rgb LedStripRGB.nextMode g) ;;
  updateWidgets.

(** [btnModeLongPressed] (lines 551-556). *)
Definition btnModeLongPressed : Globals -> Globals :=
  with_w LedStrip.turnOff ;;
  with_rgb LedStripRGB.turnOff ;;
  updateWidgets.

(** The condition of the inner [if] of [readPotValue] (line 636), on the
    [uint16_t] reading and the current [last_pot_color_value]. *)
Definition hysteresis_exceeded (new_pot_value last : Z) : bool :=
  Z.abs (Z.quot new_pot_value 4 - last) >? THRESHOLD_FOR_TURN_ON.

(** [readPotValue] (lines 604-644) with the block guarded by the inner [if]
    (lines 638-639) left open as [wake]; [reading] is what [analogRead]
    returns, stored in the [uint16_t] [new_pot_value]. *)
Definition readPotValue_with (wake : Globals -> Globals) (reading : Z) (g : Globals) : Globals :=
  let new_pot_value := u16 reading in
  if negb (Z.quot new_pot_value 4 =? last_pot_color_value g) then
    (set_last_pot_color_value (u16 (Z.quot new_pot_value 4)) ;;
     (fun g =>
        if LedStripState_eqb (rgb_state_of g) ON then
          match rgb_mode_of g with
          | NORMAL => with_rgb (LedStripRGB.setColor (color_mixer new_pot_value)) g
          | STROBE => with_rgb (LedStripRGB.setColor (color_mixer new_pot_value)) g
          | FLASH => with_rgb (LedStripRGB.setSpeed new_pot_value) g
          | FADE => with_rgb (LedStripRGB.setSpeed new_pot_value) g
          end
        else if LedStripState_eqb (w_state g) ON then
          with_w (LedStrip.setIntensity (last_pot_color_value g)) g
        else
          ((fun g => with_w (LedStrip.setIntensity (last_pot_color_value g)) g) ;;
           with_w LedStrip.turnOn ;;
           (fun g =>
              if hysteresis_exceeded new_pot_value (last_pot_color_value g)
              then wake g else g)) g) ;;
     updateWidgets) g
  else g.

(** Lines 638-639. *)
Definition wake_block : Globals -> Globals :=
  (fun g => with_w (LedStrip.setIntensity (last_pot_color_value g)) g) ;;
  with_w LedStrip.turnOn.

Definition readPotValue : Z -> Globals -> Globals := readPotValue_with wake_block.

(** [mqttCallback] (lines 330-393), on the topic and the payload as strings. *)
Definition mqttCallback (topic payload : string) : Globals -> Globals :=
  let strTopic := topic in
  let strPayload := toLowerCase (trim payload) in
  (if endsWith strTopic "/white" then
     if startsWith strPayload "on" then with_w LedStrip.turnOn
     else if startsWith strPayload "off" then with_w LedStrip.turnOff
     else (fun g => g)
   else if endsWith strTopic "/white/intensity" then
     let intensity := u32 (toInt strPayload) in
     with_w (LedStrip.setIntensity intensity)
   else if endsWith strTopic "/rgb" then
     if startsWith strPayload "on" then with_rgb LedStripRGB.turnOn
     else if startsWith strPayload "off" then with_rgb LedStripRGB.turnOff
     else (fun g => g)
   else if endsWith strTopic "/rgb/mode" then
     (if startsWith strPayload "normal" then with_rgb (LedStripRGB.setMode NORMAL)
      else if startsWith strPayload "strobe" then with_rgb (LedStripRGB.setMode STROBE)
      else if startsWith strPayload "flash" then with_rgb (LedStripRGB.setMode FLASH)
      else if startsWith strPayload "fade" then with_rgb (LedStripRGB.setMode FADE)
      else (fun g => g)) ;;
     with_rgb LedStripRGB.turnOn
   else if endsWith strTopic "/rgb/color" then
     let color := u32 (toInt strPayload) in
     with_rgb (LedStripRGB.setColor color)
   else (fun g => g)) ;;
  updateWidgets.

(** The [BLYNK_WRITE] handlers (lines 430-490 and 539-545). *)
Definition blynkWrite (w : BlynkWrite) : Globals -> Globals :=
  match w with
  | V0 r g b =>
      let red := Z.shiftl (Z.land r 255) 16 in
      let green := Z.shiftl (Z.land g 255) 8 in
      let blue := Z.land b 255 in
      let color := u32 (red + green + blue) in
      with_rgb (LedStripRGB.setColor color) ;; updateWidgets
  | V1 intensity => with_w (LedStrip.setIntensity intensity) ;; updateWidgets
  | V2 n =>
      (if n =? 1 then with_rgb (LedStripRGB.setMode NORMAL) ;; with_rgb LedStripRGB.turnOn
       else if n =? 2 then with_rgb (LedStripRGB.setMode STROBE) ;; with_rgb LedStripRGB.turnOn
       else if n =? 3 then with_rgb (LedStripRGB.setMode FLASH) ;; with_rgb LedStripRGB.turnOn
       else if n =? 4 then with_rgb (LedStripRGB.setMode FADE) ;; with_rgb LedStripRGB.turnOn
       else (fun g => g)) ;;
      updateWidgets
  | V3 pushed => if pushed =? 0 then (fun g => g) else btnModeShortPressed
  | V8 switch =>
      (if switch =? 0 then with_w LedStrip.turnOff else with_w LedStrip.turnOn) ;;
      updateWidgets
  end.

(** [serialLoop] (lines 669-780).  The commands from [mqttserver] on only
    rewrite the network configuration, which is outside [Globals]. *)
Definition serialLoop (input : option string) : Globals -> Globals :=
  match input with
  | None => fun g => g
  | Some text =>
      let command := toLowerCase text in
      (if startsWith command "on" then
         with_w LedStrip.turnOn ;; with_rgb LedStripRGB.turnOff
       else if startsWith command "off" then btnModeLongPressed
       else if startsWith command "normal" then
         with_rgb (LedStripRGB.setMode NORMAL) ;; with_rgb LedStripRGB.turnOn
       else if startsWith command "strobe" then
         with_rgb (LedStripRGB.setMode STROBE) ;; with_rgb LedStripRGB.turnOn
       else if startsWith command "flash" then
         with_rgb (LedStripRGB.setMode FLASH) ;; with_rgb LedStripRGB.turnOn
       else if startsWith command "fade" then
         with_rgb (LedStripRGB.setMode FADE) ;; with_rgb LedStripRGB.turnOn
       else if startsWith command "next" then btnModeShortPressed
       else if startsWith command "color" then
         let command := remove_front 7 command in
         with_rgb (LedStripRGB.setColor (u32 (toInt command))) ;;
         with_rgb LedStripRGB.turnOn
       else (fun g => g)) ;;
      updateWidgets
  end.

(** [btn_mode.loop()]: BtnHandler.h is outside the sources; the handler was
    built at line 559 with the two callbacks, and calls the one matching the
    event it detects, if any. *)
Definition btn_mode_loop (ev : option ButtonEvent) : Globals -> Globals :=
  match ev with
  | Some ShortPress => btnModeShortPressed
  | Some LongPress => btnModeLongPressed
  | None => fun g => g
  end.

Definition mqttClient_loop (msgs : list (string * string)) (g : Globals) : Globals :=
  fold_left (fun g m => mqttCallback (fst m) (snd m) g) msgs g.

Definition Blynk_run (ws : list BlynkWrite) (g : Globals) : Globals :=
  fold_left (fun g w => blynkWrite w g) ws g.

(** [loop] (lines 887-902).  Line 888, the call of [readPotValue], is
    commented out in the source, so nothing here reads [pot e]; the MQTT
    reconnection and the final [delay(50)] do not touch [Globals]. *)
Definition loop (e : Env) : Globals -> Globals :=
  serialLoop (serial e) ;;
  btn_mode_loop (btn_event e) ;;
  with_rgb (rgb_tick (now e)) ;;
  mqttClient_loop (mqtt_msgs e) ;;
  mqttSendTele (now e) ;;
  Blynk_run (blynk_writes e).

(** The iteration the comment above [loop] (lines 882-886) describes: the
    analog input is read first, then the button, then the RGB update. *)
Definition loop_as_documented (e : Env) : Globals -> Globals :=
  readPotValue (pot e) ;; loop e.

End Sketch.

(** ** Concrete instances used by the examples *)

(** An animation engine that shows the stored colour in every mode. *)
Definition still (s : LedStripRGB.t) : RGBColor := LedStripRGB.color s.

Definition white_lamp : LedStrip.t := LedStrip.mk true 0.
Definition purple_off : LedStripRGB.t :=
  LedStripRGB.mk false NORMAL (mkRGB 128 0 128) 0 0.

(** White on, RGB off: the state [setup] leaves (lines 799-801). *)
Definition WhiteOn : Globals := mkGlobals white_lamp purple_off 16777215 1 0 [].

(** Both off. *)
Definition AllOff : Globals :=
  mkGlobals (LedStrip.mk false 40) purple_off 16777215 1 0 [].

(** RGB on with a given mode and colour, white off. *)
Definition RgbOn (m : LedStripRgbMode) (c : RGBColor) : Globals :=
  mkGlobals (LedStrip.mk false 40) (LedStripRGB.mk true m c 500 0) 16777215 1 0 [].

(** An iteration in which nothing arrives from outside but a pot reading. *)
Definition quiet (reading : Z) : Env := mkEnv None None reading 1000 [] [].

(** ** Start-up and sequences of button events *)

Section Startup.

(** [COLOR_RED], [COLOR_GREEN], [COLOR_BLUE] and [COLOR_DARKPURPLE] (the
    value of [DEFAULT_COLOR], line 146) of LedStripRGB.h, and the tick of the
    RGB group, none of which the sources give. *)
Variables COLOR_RED COLOR_GREEN COLOR_BLUE DEFAULT_COLOR : Z.
Variable rgb_tick : Z -> LedStripRGB.t -> LedStripRGB.t.

(** [test_leds] (lines 649-667); [t1], [t2], [t3] are [millis()] at the three
    calls of [led_strip_rgb.loop()], the [delay]s do not touch [Globals]. *)
Definition test_leds (t1 t2 t3 : Z) : Globals -> Globals :=
  with_w LedStrip.turnOn ;;
  with_rgb LedStripRGB.turnOff ;;
  with_rgb (LedStripRGB.setMode NORMAL) ;;
  with_w LedStrip.turnOff ;;
  with_rgb LedStripRGB.turnOn ;;
  with_rgb (LedStripRGB.setColor COLOR_RED) ;;
  with_rgb (rgb_tick t1) ;;
  with_rgb (LedStripRGB.setColor COLOR_GREEN) ;;
  with_rgb (rgb_tick t2) ;;
  with_rgb (LedStripRGB.setColor COLOR_BLUE) ;;
  with_rgb (rgb_tick t3).

(** The lighting statements of [setup] (lines 797-801), from the state the
    two objects are in once their own [setup()] has run; the rest of [setup]
    configures the network and does not touch [Globals]. *)
Definition setup (t1 t2 t3 : Z) : Globals -> Globals :=
  test_leds t1 t2 t3 ;;
  with_w LedStrip.turnOn ;;
  with_rgb LedStripRGB.turnOff ;;
  with_rgb (LedStripRGB.setColor DEFAULT_COLOR).

End Startup.

(** The button handler firing a list of events, one per iteration. *)
Definition run_buttons (COLOR_WHITE : Z) (animated : LedStripRGB.t -> RGBColor)
    (evs : list ButtonEvent) (g : Globals) : Globals :=
  fold_left (fun g ev => btn_mode_loop COLOR_WHITE animated (Some ev) g) evs g.

(** The white channel and the RGB group are lit together only while the
    group shows the white sentinel in Normal mode. *)
Definition overlap_only_white (COLOR_WHITE : Z) (g : Globals) : Prop :=
  w_state g = ON -> rgb_state_of g = ON ->
  rgb_mode_of g = NORMAL /\ rgb_color_of g = COLOR_WHITE.

(** The inputs of 0..1023 on which [256 - value] wraps to 0. *)
Definition dark_inputs : list Z := [0; 1; 341; 342; 682; 683; 684].

(** All values [0 <= v < n] pass the test [p]. *)
Definition all_below (n : nat) (p : Z -> bool) : bool :=
  forallb p (map Z.of_nat (List.seq 0 n)).



(** ** Arithmetic of the colour packing *)

Lemma clamp_id lo hi v : lo <= v <= hi -> clamp lo hi v = v.
Proof. unfold clamp; lia. Qed.

Lemma land_255_mod (x : Z) : Z.land x 255 = x mod 256.
Proof. change 255 with (Z.ones 8). rewrite Z.land_ones by lia. reflexivity. Qed.

Lemma land_255_range (x : Z) : 0 <= Z.land x 255 <= 255.
Proof. rewrite land_255_mod. pose proof (Z.mod_pos_bound x 256). lia. Qed.

Lemma shiftl_16 (x : Z) : Z.shiftl x 16 = x * 65536.
Proof. rewrite Z.shiftl_mul_pow2 by lia. reflexivity. Qed.

Lemma shiftl_8 (x : Z) : Z.shiftl x 8 = x * 256.
Proof. rewrite Z.shiftl_mul_pow2 by lia. reflexivity. Qed.

Lemma shiftr_16 (x : Z) : Z.shiftr x 16 = x / 65536.
Proof. rewrite Z.shiftr_div_pow2 by lia. reflexivity. Qed.

Lemma shiftr_8 (x : Z) : Z.shiftr x 8 = x / 256.
Proof. rewrite Z.shiftr_div_pow2 by lia. reflexivity. Qed.

Ltac bytes_arith :=
  rewrite ?land_255_mod, ?shiftl_16, ?shiftl_8, ?shiftr_16, ?shiftr_8;
  Z.div_mod_to_equations; lia.

Lemma unpackRGB_valid (v : Z) : valid_rgb (unpackRGB v).
Proof. unfold valid_rgb, unpackRGB; cbn [red green blue]. repeat split; apply land_255_range. Qed.

Lemma packRGB_range (c : RGBColor) : valid_rgb c -> 0 <= packRGB c <= 16777215.
Proof. unfold valid_rgb, packRGB. rewrite shiftl_16, shiftl_8. lia. Qed.

Lemma packRGB_unpackRGB (v : Z) : 0 <= v <= 16777215 -> packRGB (unpackRGB v) = v.
Proof. intros Hv. unfold packRGB, unpackRGB; cbn [red green blue]. bytes_arith. Qed.

Lemma unpackRGB_packRGB (c : RGBColor) : valid_rgb c -> unpackRGB (packRGB c) = c.
Proof.
  destruct c as [r g b]. unfold valid_rgb, packRGB, unpackRGB; cbn [red green blue].
  intros (Hr & Hg & Hb). f_equal; bytes_arith.
Qed.

(** Round trip of section 8: [setColor c] then [getColor] gives [c] back. *)
Lemma getColor_setColor (c : Z) (s : LedStripRGB.t) :
  0 <= c <= 16777215 -> LedStripRGB.getColor (LedStripRGB.setColor c s) = c.
Proof.
  intros Hc. unfold LedStripRGB.getColor, LedStripRGB.setColor; simpl.
  rewrite clamp_id by lia. now apply packRGB_unpackRGB.
Qed.

Lemma color_setColor_getColor (s s' : LedStripRGB.t) :
  valid_rgb (LedStripRGB.color s) ->
  LedStripRGB.color (LedStripRGB.setColor (LedStripRGB.getColor s) s') = LedStripRGB.color s.
Proof.
  intros Hv. unfold LedStripRGB.getColor, LedStripRGB.setColor; simpl.
  rewrite clamp_id by (now apply packRGB_range). now apply unpackRGB_packRGB.
Qed.

(** The packed mixer output, before the conversion to [uint32_t]. *)
Lemma color_mixer_packed (v : Z) :
  color_mixer v =
  (let '(r, g, b) := mixer_channels v in
   Z.land r 255 * 65536 + Z.land g 255 * 256 + Z.land b 255).
Proof.
  unfold color_mixer. destruct (mixer_channels v) as [[r g] b].
  rewrite shiftl_16, shiftl_8. unfold u32.
  pose proof (land_255_range r). pose proof (land_255_range g).
  pose proof (land_255_range b). apply Z.mod_small. lia.
Qed.

Lemma color_mixer_range (v : Z) : 0 <= color_mixer v <= 16777215.
Proof.
  rewrite color_mixer_packed. destruct (mixer_channels v) as [[r g] b].
  pose proof (land_255_range r). pose proof (land_255_range g).
  pose proof (land_255_range b). lia.
Qed.

(** ** The colour mixer *)

(** C4: at input 0 the mixer does not return (255, 0, 1): line 570 computes
    red as [256 - 0], which the mask at line 589 turns into 0, so the result
    is (0, 0, 1), the packed value 1.  At input 1023 it returns (255, 1, 1),
    which is close to red and not near black. *)
Theorem color_mixer_at_ends :
  mixer_channels 0 = (256, 0, 1) /\
  color_mixer 0 = 1 /\
  mixed 0 = mkRGB 0 0 1 /\
  mixed 0 <> mkRGB 255 0 1 /\
  mixed 1023 = mkRGB 255 1 1.
Proof. repeat split; try reflexivity. discriminate. Qed.

(** C5: the mixer is not continuous.  Between the adjacent inputs 1 and 2
    red jumps from 0 to 255, and the same full-scale jump happens around both
    segment boundaries (340 to 341, 342 to 343, 681 to 682, 684 to 685);
    these five are the only adjacent pairs of 0..1023 more than one unit
    apart. *)
Theorem color_mixer_jumps :
  mixed 1 = mkRGB 0 0 1 /\ mixed 2 = mkRGB 255 1 1 /\
  rgb_step (mixed 1) (mixed 2) = 255 /\
  rgb_step (mixed 340) (mixed 341) = 255 /\
  rgb_step (mixed 681) (mixed 682) = 255 /\
  filter (fun v => 1 <? rgb_step (mixed v) (mixed (v + 1))) (map Z.of_nat (List.seq 0 1023))
  = [1; 340; 342; 681; 684].
Proof. repeat split; vm_compute; reflexivity. Qed.

(** Each jump lands on a colour whose components sum to at most 1: the
    inputs of 0..1023 that the mixer sends next to black. *)
Lemma color_mixer_dark_inputs :
  filter (fun v => red (mixed v) + green (mixed v) + blue (mixed v) <? 2)
         (map Z.of_nat (List.seq 0 1024))
  = [0; 1; 341; 342; 682; 683; 684].
Proof. vm_compute. reflexivity. Qed.

(** C9: [color_mixer] is a total function, and on every [uint16_t] input its
    result is a 24-bit value whose three byte fields are the masked [red],
    [green] and [blue] of lines 589-591, each within 0..255; nothing lies
    above bit 23, so packing the fields gives the result back. *)
Theorem color_mixer_fits_24_bits (v : Z) :
  0 <= v <= 65535 ->
  0 <= color_mixer v <= 16777215 /\
  (let '(r, g, b) := mixer_channels v in
   mixed v = mkRGB (Z.land r 255) (Z.land g 255) (Z.land b 255)) /\
  valid_rgb (mixed v) /\
  packRGB (mixed v) = color_mixer v.
Proof.
  intros _. split; [apply color_mixer_range|]. split.
  - unfold mixed. rewrite color_mixer_packed.
    destruct (mixer_channels v) as [[r g] b].
    rewrite <- shiftl_16, <- shiftl_8.
    apply (unpackRGB_packRGB (mkRGB (Z.land r 255) (Z.land g 255) (Z.land b 255))).
    unfold valid_rgb; cbn [red green blue]. repeat split; apply land_255_range.
  - split; [apply unpackRGB_valid|].
    apply packRGB_unpackRGB, color_mixer_range.
Qed.

(** ** Quantized potentiometer readings *)

Lemma quantized_u16 (reading : Z) :
  0 <= reading <= 65535 -> u16 (reading / 4) = reading / 4.
Proof. intros H. unfold u16. apply Z.mod_small. Z.div_mod_to_equations. lia. Qed.

Lemma quantized_byte (reading : Z) :
  0 <= reading <= 1023 -> clamp 0 255 (reading / 4) = reading / 4.
Proof. intros H. apply clamp_id. Z.div_mod_to_equations. lia. Qed.

(** ** The button callbacks *)

Section Properties.

Variable COLOR_WHITE : Z.
Variable animated : LedStripRGB.t -> RGBColor.
Variable rgb_tick : Z -> LedStripRGB.t -> LedStripRGB.t.

Lemma mode_setMode (m : LedStripRgbMode) (s : LedStripRGB.t) :
  LedStripRGB.mode (LedStripRGB.setMode m s) = m.
Proof.
  unfold LedStripRGB.setMode.
  destruct m, (LedStripRGB.mode s) eqn:E; cbn; congruence.
Qed.

Lemma color_setMode (m : LedStripRgbMode) (s : LedStripRGB.t) :
  LedStripRGB.color (LedStripRGB.setMode m s) = LedStripRGB.color s.
Proof. unfold LedStripRGB.setMode. destruct (LedStripRgbMode_eqb _ _); reflexivity. Qed.

(** The first short press from white on, RGB off: the second rule fires. *)
Lemma short_press_from_white (g : Globals) :
  w_state g = ON -> rgb_state_of g = OFF ->
  btnModeShortPressed COLOR_WHITE animated g =
  (with_w (LedStrip.setIntensity 255) ;;
   set_last_color (rgb_color_of g) ;;
   with_rgb (LedStripRGB.setColor COLOR_WHITE) ;;
   with_rgb (LedStripRGB.setMode NORMAL) ;;
   with_rgb LedStripRGB.turnOn ;;
   updateWidgets animated) g.
Proof.
  intros Hw Hrgb. unfold btnModeShortPressed, andThen. rewrite Hw, Hrgb. reflexivity.
Qed.

(** A short press while the RGB group shows the white sentinel in Normal
    mode: the third rule fires. *)
Lemma short_press_from_rgb_white (g : Globals) :
  rgb_state_of g = ON -> rgb_mode_of g = NORMAL -> rgb_color_of g = COLOR_WHITE ->
  btnModeShortPressed COLOR_WHITE animated g =
  (with_w LedStrip.turnOff ;;
   with_rgb (LedStripRGB.setColor (last_color g)) ;;
   with_rgb LedStripRGB.turnOn ;;
   updateWidgets animated) g.
Proof.
  intros Hrgb Hm Hc. unfold btnModeShortPressed, andThen.
  rewrite Hrgb, Hm, Hc, Z.eqb_refl. destruct (w_state g); reflexivity.
Qed.

(** C1: from white on and RGB off, two short presses leave the RGB group on
    in Normal mode showing the colour it held before the first press (which
    the first press saved in [last_color]), and the white channel off. *)
Theorem short_press_twice_restores_color (g : Globals) :
  0 <= COLOR_WHITE <= 16777215 ->
  valid_rgb (LedStripRGB.color (led_strip_rgb g)) ->
  w_state g = ON -> rgb_state_of g = OFF ->
  let g1 := btnModeShortPressed COLOR_WHITE animated g in
  let g2 := btnModeShortPressed COLOR_WHITE animated g1 in
  last_color g1 = rgb_color_of g /\
  rgb_state_of g2 = ON /\
  rgb_mode_of g2 = NORMAL /\
  rgb_color_of g2 = rgb_color_of g /\
  LedStripRGB.color (led_strip_rgb g2) = LedStripRGB.color (led_strip_rgb g) /\
  w_state g2 = OFF.
Proof.
  intros Hcw Hval Hw Hrgb g1 g2.
  assert (E1 : g1 = _) by (apply short_press_from_white; assumption).
  assert (Hlast : last_color g1 = rgb_color_of g) by (rewrite E1; reflexivity).
  assert (Hon1 : rgb_state_of g1 = ON).
  { rewrite E1. unfold rgb_state_of, LedStripRGB.getState. reflexivity. }
  assert (Hmode1 : rgb_mode_of g1 = NORMAL).
  { rewrite E1. unfold rgb_mode_of, LedStripRGB.getMode, andThen.
    cbn [updateWidgets mqttSendStat publish led_strip_rgb with_rgb LedStripRGB.turnOn LedStripRGB.mode].
    apply mode_setMode. }
  assert (Hcol1 : rgb_color_of g1 = COLOR_WHITE).
  { rewrite E1. unfold rgb_color_of, LedStripRGB.getColor, andThen.
    cbn [updateWidgets mqttSendStat publish led_strip_rgb with_rgb LedStripRGB.turnOn LedStripRGB.color].
    rewrite color_setMode. apply getColor_setColor. assumption. }
  assert (E2 : g2 = _) by (apply short_press_from_rgb_white; assumption).
  assert (Hc2 : LedStripRGB.color (led_strip_rgb g2) = LedStripRGB.color (led_strip_rgb g)).
  { rewrite E2, Hlast. unfold andThen.
    cbn [updateWidgets mqttSendStat publish led_strip_rgb with_rgb LedStripRGB.turnOn LedStripRGB.color].
    apply (color_setColor_getColor (led_strip_rgb g)). assumption. }
  split; [exact Hlast|].
  split; [rewrite E2; reflexivity|].
  split; [rewrite E2; transitivity (rgb_mode_of g1); [reflexivity|exact Hmode1]|].
  split; [unfold rgb_color_of, LedStripRGB.getColor; now rewrite Hc2|].
  split; [exact Hc2|].
  rewrite E2. reflexivity.
Qed.

(** C2: whatever the state, a long press leaves the white channel and the
    RGB group both off. *)
Theorem long_press_all_off (g : Globals) :
  w_state (btnModeLongPressed animated g) = OFF /\
  rgb_state_of (btnModeLongPressed animated g) = OFF.
Proof. split; reflexivity. Qed.

(** A long press changes nothing but the two on/off flags. *)
Lemma long_press_keeps_settings (g : Globals) :
  let g' := btnModeLongPressed animated g in
  LedStrip.intensity (led_strip_w g') = LedStrip.intensity (led_strip_w g) /\
  rgb_mode_of g' = rgb_mode_of g /\ rgb_color_of g' = rgb_color_of g.
Proof. repeat split; reflexivity. Qed.

(** ** The potentiometer handler *)

(** When the quantized reading of a 10-bit sample differs from the stored
    one, [readPotValue] stores it, dispatches on the state and publishes. *)
Lemma readPotValue_changed (wake : Globals -> Globals) (reading : Z) (g : Globals) :
  0 <= reading <= 65535 ->
  reading / 4 <> last_pot_color_value g ->
  readPotValue_with animated wake reading g =
  updateWidgets animated
    (let g := set_last_pot_color_value (reading / 4) g in
     if LedStripState_eqb (rgb_state_of g) ON then
       match rgb_mode_of g with
       | NORMAL | STROBE => with_rgb (LedStripRGB.setColor (color_mixer reading)) g
       | FLASH | FADE => with_rgb (LedStripRGB.setSpeed reading) g
       end
     else if LedStripState_eqb (w_state g) ON then
       with_w (LedStrip.setIntensity (reading / 4)) g
     else
       let g := with_w LedStrip.turnOn (with_w (LedStrip.setIntensity (reading / 4)) g) in
       if hysteresis_exceeded reading (reading / 4) then wake g else g).
Proof.
  intros Hr Hne. unfold readPotValue_with.
  assert (E16 : u16 reading = reading) by (unfold u16; apply Z.mod_small; lia).
  assert (Eq : Z.quot reading 4 = reading / 4) by (apply Z.quot_div_nonneg; lia).
  assert (Eq16 : u16 (reading / 4) = reading / 4) by (apply quantized_u16; lia).
  rewrite E16, Eq, Eq16.
  destruct (Z.eqb_spec (reading / 4) (last_pot_color_value g)) as [E|_]; [contradiction|].
  cbn [negb]. unfold andThen. reflexivity.
Qed.

(** C7: when the quantized reading (the raw 10-bit reading divided by 4)
    changes, [readPotValue] sets the colour to [color_mixer] of the raw
    reading if the RGB group is on in Normal or Strobe mode; sets the speed
    to the raw reading and keeps the colour if it is on in Flash or Fade
    mode; and otherwise, if the white channel is on, sets the white
    intensity to the quantized reading. *)
Theorem pot_change_dispatch (reading : Z) (g : Globals) :
  0 <= reading <= 1023 ->
  reading / 4 <> last_pot_color_value g ->
  let g' := readPotValue animated reading g in
  (rgb_state_of g = ON -> rgb_mode_of g = NORMAL \/ rgb_mode_of g = STROBE ->
   rgb_color_of g' = color_mixer reading) /\
  (rgb_state_of g = ON -> rgb_mode_of g = FLASH \/ rgb_mode_of g = FADE ->
   LedStripRGB.getSpeed (led_strip_rgb g') = reading /\
   LedStripRGB.color (led_strip_rgb g') = LedStripRGB.color (led_strip_rgb g)) /\
  (rgb_state_of g = OFF -> w_state g = ON ->
   LedStrip.getIntensity (led_strip_w g') = reading / 4).
Proof.
  intros Hr Hne g'.
  assert (E : g' = _) by (apply readPotValue_changed; [lia|exact Hne]).
  cbv zeta in E.
  change (rgb_state_of (set_last_pot_color_value (reading / 4) g)) with (rgb_state_of g) in E.
  change (rgb_mode_of (set_last_pot_color_value (reading / 4) g)) with (rgb_mode_of g) in E.
  change (w_state (set_last_pot_color_value (reading / 4) g)) with (w_state g) in E.
  split; [|split].
  - intros Hon Hm. rewrite E, Hon. cbn [LedStripState_eqb].
    assert (Ec : forall s, LedStripRGB.getColor (LedStripRGB.setColor (color_mixer reading) s)
                           = color_mixer reading)
      by (intros s; apply getColor_setColor, color_mixer_range).
    destruct Hm as [Hm|Hm]; rewrite Hm; apply Ec.
  - intros Hon Hm. rewrite E, Hon. cbn [LedStripState_eqb].
    assert (Es : clamp 0 65535 reading = reading) by (apply clamp_id; lia).
    destruct Hm as [Hm|Hm]; rewrite Hm; (split; [exact Es|reflexivity]).
  - intros Hoff Hw. rewrite E, Hoff, Hw. cbn [LedStripState_eqb].
    unfold LedStrip.getIntensity, updateWidgets, mqttSendStat, publish, with_w.
    cbn [led_strip_w LedStrip.setIntensity LedStrip.intensity].
    apply quantized_byte. exact Hr.
Qed.

(** C10: with both the white channel and the RGB group off, any change of
    the quantized reading turns the white channel on.  The comparison of
    line 636 is made after [last_pot_color_value] has taken the new quantized
    reading, so it is false, and whatever block it guards has no effect on
    the result. *)
Theorem pot_wakes_white_unconditionally (reading : Z) (g : Globals) :
  0 <= reading <= 65535 ->
  w_state g = OFF -> rgb_state_of g = OFF ->
  reading / 4 <> last_pot_color_value g ->
  let g' := readPotValue animated reading g in
  w_state g' = ON /\
  last_pot_color_value g' = reading / 4 /\
  hysteresis_exceeded reading (last_pot_color_value g') = false /\
  (forall wake, readPotValue_with animated wake reading g = g').
Proof.
  intros Hr Hw Hrgb Hne g'.
  assert (Hh : hysteresis_exceeded reading (reading / 4) = false).
  { unfold hysteresis_exceeded, THRESHOLD_FOR_TURN_ON.
    rewrite Z.quot_div_nonneg by lia. rewrite Z.sub_diag. reflexivity. }
  assert (E : forall wake, readPotValue_with animated wake reading g =
    updateWidgets animated
      (with_w LedStrip.turnOn
         (with_w (LedStrip.setIntensity (reading / 4))
            (set_last_pot_color_value (reading / 4) g)))).
  { intros wake. rewrite readPotValue_changed by assumption. cbv zeta.
    change (rgb_state_of (set_last_pot_color_value (reading / 4) g)) with (rgb_state_of g).
    change (w_state (set_last_pot_color_value (reading / 4) g)) with (w_state g).
    rewrite Hw, Hrgb, Hh. reflexivity. }
  assert (E' : g' = _) by (apply E).
  split; [rewrite E'; reflexivity|].
  assert (Hl : last_pot_color_value g' = reading / 4) by (rewrite E'; reflexivity).
  split; [exact Hl|].
  split; [rewrite Hl; exact Hh|].
  intros wake. rewrite E'. apply E.
Qed.

(** ** Telemetry *)

(** Two parts of the snapshot format hold in every state: a white channel
    that is off reports intensity 0 whatever it stores, and an RGB group
    that is off reports the empty mode. *)
Lemma telemetry_white_off (g : Globals) :
  w_state g = OFF ->
  white_state (getState animated g) = "OFF" /\ white_intensity (getState animated g) = 0.
Proof. intros H. unfold getState. rewrite H. split; reflexivity. Qed.

Lemma telemetry_rgb_off (g : Globals) :
  rgb_state_of g = OFF ->
  rgb_state (getState animated g) = "OFF" /\ rgb_mode (getState animated g) = "".
Proof. intros H. unfold getState. rewrite H. split; reflexivity. Qed.

(** C8: the colour of the snapshot is not always '#' and six hexadecimal
    digits.  Line 262 concatenates [String(c, HEX)] of the three components,
    which writes no leading zero: after a long press from any state the
    colour reads "#000" (four characters), the colour (10, 11, 12) shown in
    Normal mode reads "#abc" rather than "#0a0b0c", and the two different
    colours (1, 0, 16) and (16, 1, 0) both read "#1010". *)
Theorem telemetry_color_not_padded :
  (forall g, rgb_color (getState animated (btnModeLongPressed animated g)) = "#000") /\
  rgb_color (getState animated WhiteOn) = "#000" /\
  String.length (rgb_color (getState animated WhiteOn)) <> 7%nat /\
  rgb_color (getState animated (RgbOn NORMAL (mkRGB 10 11 12))) = "#abc" /\
  rgb_color (getState animated (RgbOn NORMAL (mkRGB 1 0 16))) = "#1010" /\
  rgb_color (getState animated (RgbOn NORMAL (mkRGB 16 1 0))) = "#1010".
Proof. repeat split; try reflexivity. cbn. discriminate. Qed.

(** With components of two digits each the format is the stated one. *)
Lemma telemetry_color_wide :
  rgb_color (getState animated (RgbOn NORMAL (mkRGB 128 16 255))) = "#8010ff".
Proof. reflexivity. Qed.

(** ** MQTT commands *)

(** On the mode topic the handler ends with [turnOn] (line 386) whatever the
    payload is. *)
Lemma mqtt_mode_topic_turns_rgb_on (payload : string) (g : Globals) :
  rgb_state_of (mqttCallback animated "strip/cmnd/rgb/mode" payload g) = ON.
Proof.
  unfold mqttCallback.
  replace (endsWith "strip/cmnd/rgb/mode" "/white") with false by reflexivity.
  replace (endsWith "strip/cmnd/rgb/mode" "/white/intensity") with false by reflexivity.
  replace (endsWith "strip/cmnd/rgb/mode" "/rgb") with false by reflexivity.
  replace (endsWith "strip/cmnd/rgb/mode" "/rgb/mode") with true by reflexivity.
  unfold andThen. reflexivity.
Qed.

(** C6: a payload naming none of the four modes does change the state.
    With the RGB group off, the payload "blink" on the mode topic leaves the
    mode alone but turns the group on; the Blynk menu handler, given an
    option outside 1..4, leaves the group as it was. *)
Theorem mqtt_unknown_mode_turns_rgb_on :
  let g' := mqttCallback animated "strip/cmnd/rgb/mode" "blink" WhiteOn in
  rgb_state_of WhiteOn = OFF /\
  rgb_state_of g' = ON /\
  rgb_mode_of g' = rgb_mode_of WhiteOn /\
  led_strip_w g' = led_strip_w WhiteOn /\
  led_strip_rgb g' <> led_strip_rgb WhiteOn /\
  led_strip_rgb (blynkWrite COLOR_WHITE animated (V2 9) WhiteOn) = led_strip_rgb WhiteOn.
Proof. cbv zeta. repeat split; try reflexivity. cbn. discriminate. Qed.

(** ** The control loop *)

(** C3: an iteration of [loop] does not sample the potentiometer.  Its result
    is the same whatever the analog input reads; in a quiet iteration from
    white-on with the pot at 800 the stored reading stays 1 and the white
    intensity stays 0, where the documented iteration stores 200 and sets
    the intensity to 200.  The button handler and the RGB tick do run, in
    that order. *)
Theorem loop_skips_potentiometer :
  (forall e p g,
     loop COLOR_WHITE animated rgb_tick
       (mkEnv (serial e) (btn_event e) p (now e) (mqtt_msgs e) (blynk_writes e)) g
     = loop COLOR_WHITE animated rgb_tick e g) /\
  (let g' := loop COLOR_WHITE animated rgb_tick (quiet 800) WhiteOn in
   last_pot_color_value g' = 1 /\ LedStrip.getIntensity (led_strip_w g') = 0) /\
  (let g' := loop_as_documented COLOR_WHITE animated rgb_tick (quiet 800) WhiteOn in
   last_pot_color_value g' = 200 /\ LedStrip.getIntensity (led_strip_w g') = 200).
Proof. cbv zeta. repeat split; reflexivity. Qed.


End Properties.

(** ** Instances of the conditional statements *)

Lemma short_press_twice_restores_color_witness :
  (0 <= 16777215 <= 16777215 /\
   valid_rgb (LedStripRGB.color (led_strip_rgb WhiteOn)) /\
   w_state WhiteOn = ON /\ rgb_state_of WhiteOn = OFF) /\
  (let g1 := btnModeShortPressed 16777215 still WhiteOn in
   let g2 := btnModeShortPressed 16777215 still g1 in
   last_color g1 = rgb_color_of WhiteOn /\
   rgb_state_of g2 = ON /\
   rgb_mode_of g2 = NORMAL /\
   rgb_color_of g2 = rgb_color_of WhiteOn /\
   LedStripRGB.color (led_strip_rgb g2) = LedStripRGB.color (led_strip_rgb WhiteOn) /\
   w_state g2 = OFF).
Proof.
  assert (Hc : 0 <= 16777215 <= 16777215) by lia.
  assert (Hv : valid_rgb (LedStripRGB.color (led_strip_rgb WhiteOn)))
    by (unfold valid_rgb; cbn; lia).
  split.
  - split; [exact Hc | split; [exact Hv | split; reflexivity]].
  - apply (short_press_twice_restores_color 16777215 still WhiteOn Hc Hv);
      reflexivity.
Defined.

Lemma color_mixer_fits_24_bits_witness :
  0 <= 1023 <= 65535 /\
  (0 <= color_mixer 1023 <= 16777215 /\
   (let '(r, g, b) := mixer_channels 1023 in
    mixed 1023 = mkRGB (Z.land r 255) (Z.land g 255) (Z.land b 255)) /\
   valid_rgb (mixed 1023) /\
   packRGB (mixed 1023) = color_mixer 1023).
Proof.
  assert (H : 0 <= 1023 <= 65535) by lia.
  split; [exact H | apply (color_mixer_fits_24_bits 1023 H)].
Defined.

Lemma pot_change_dispatch_witness :
  (0 <= 800 <= 1023 /\ 800 / 4 <> last_pot_color_value (RgbOn STROBE (mkRGB 1 2 3))) /\
  (let g := RgbOn STROBE (mkRGB 1 2 3) in
   let g' := readPotValue still 800 g in
   (rgb_state_of g = ON -> rgb_mode_of g = NORMAL \/ rgb_mode_of g = STROBE ->
    rgb_color_of g' = color_mixer 800) /\
   (rgb_state_of g = ON -> rgb_mode_of g = FLASH \/ rgb_mode_of g = FADE ->
    LedStripRGB.getSpeed (led_strip_rgb g') = 800 /\
    LedStripRGB.color (led_strip_rgb g') = LedStripRGB.color (led_strip_rgb g)) /\
   (rgb_state_of g = OFF -> w_state g = ON ->
    LedStrip.getIntensity (led_strip_w g') = 800 / 4)).
Proof.
  assert (Hr : 0 <= 800 <= 1023) by lia.
  assert (Hne : 800 / 4 <> last_pot_color_value (RgbOn STROBE (mkRGB 1 2 3)))
    by (vm_compute; discriminate).
  split; [split; [exact Hr | exact Hne]|].
  apply (pot_change_dispatch still 800 (RgbOn STROBE (mkRGB 1 2 3)) Hr Hne).
Defined.

Lemma pot_wakes_white_unconditionally_witness :
  (0 <= 800 <= 65535 /\ w_state AllOff = OFF /\ rgb_state_of AllOff = OFF /\
   800 / 4 <> last_pot_color_value AllOff) /\
  (let g' := readPotValue still 800 AllOff in
   w_state g' = ON /\
   last_pot_color_value g' = 800 / 4 /\
   hysteresis_exceeded 800 (last_pot_color_value g') = false /\
   (forall wake, readPotValue_with still wake 800 AllOff = g')).
Proof.
  assert (Hr : 0 <= 800 <= 65535) by lia.
  assert (Hne : 800 / 4 <> last_pot_color_value AllOff) by (vm_compute; discriminate).
  split; [split; [exact Hr | split; [reflexivity | split; [reflexivity | exact Hne]]]|].
  apply (pot_wakes_white_unconditionally still 800 AllOff Hr eq_refl eq_refl Hne).
Defined.

(** ** More on the short press *)

Section ShortPress.

Variable COLOR_WHITE : Z.
Variable animated : LedStripRGB.t -> RGBColor.

Local Notation "'short'" := (btnModeShortPressed COLOR_WHITE animated).
Local Notation "'long'" := (btnModeLongPressed animated).

Lemma isOn_setMode (m : LedStripRgbMode) (s : LedStripRGB.t) :
  LedStripRGB.isOn (LedStripRGB.setMode m s) = LedStripRGB.isOn s.
Proof. unfold LedStripRGB.setMode. destruct (LedStripRgbMode_eqb _ _); reflexivity. Qed.

Lemma state_nextMode (s : LedStripRGB.t) :
  LedStripRGB.getState (LedStripRGB.nextMode s) = LedStripRGB.getState s.
Proof. unfold LedStripRGB.getState, LedStripRGB.nextMode. now rewrite isOn_setMode. Qed.

Lemma mode_nextMode (s : LedStripRGB.t) :
  LedStripRGB.mode (LedStripRGB.nextMode s) = LedStripRGB.next (LedStripRGB.mode s).
Proof. unfold LedStripRGB.nextMode. apply mode_setMode. Qed.

Lemma color_nextMode (s : LedStripRGB.t) :
  LedStripRGB.color (LedStripRGB.nextMode s) = LedStripRGB.color s.
Proof. unfold LedStripRGB.nextMode. apply color_setMode. Qed.

(** Rules three to five of the short press are reached exactly when the RGB
    group is on. *)
Lemma short_press_rgb_on (g : Globals) :
  rgb_state_of g = ON ->
  short g =
  updateWidgets animated
    (if LedStripRgbMode_eqb (rgb_mode_of g) NORMAL && (rgb_color_of g =? COLOR_WHITE) then
       with_rgb LedStripRGB.turnOn
         (with_rgb (LedStripRGB.setColor (last_color g)) (with_w LedStrip.turnOff g))
     else if LedStripRgbMode_eqb (rgb_mode_of g) FADE then
       with_rgb LedStripRGB.turnOff
         (with_rgb LedStripRGB.nextMode (with_w LedStrip.turnOn g))
     else with_rgb LedStripRGB.nextMode g).
Proof.
  intros Hon. unfold btnModeShortPressed, andThen. rewrite Hon.
  destruct (w_state g); cbn [LedStripState_eqb andb];
    destruct (LedStripRgbMode_eqb (rgb_mode_of g) NORMAL && (rgb_color_of g =? COLOR_WHITE));
    try reflexivity;
    destruct (LedStripRgbMode_eqb (rgb_mode_of g) FADE); reflexivity.
Qed.

Lemma short_press_advance_eq (g : Globals) :
  rgb_state_of g = ON ->
  rgb_mode_of g <> FADE ->
  ~ (rgb_mode_of g = NORMAL /\ rgb_color_of g = COLOR_WHITE) ->
  short g = updateWidgets animated (with_rgb LedStripRGB.nextMode g).
Proof.
  intros Hon Hfade Hwhite. rewrite (short_press_rgb_on g Hon).
  destruct (rgb_mode_of g) eqn:Hm; cbn [LedStripRgbMode_eqb andb]; try reflexivity.
  - destruct (Z.eqb_spec (rgb_color_of g) COLOR_WHITE) as [Hc|Hc]; [|reflexivity].
    exfalso. apply Hwhite. split; [reflexivity|exact Hc].
  - congruence.
Qed.

Lemma short_press_fade_eq (g : Globals) :
  rgb_state_of g = ON -> rgb_mode_of g = FADE ->
  short g =
  updateWidgets animated
    (with_rgb LedStripRGB.turnOff
       (with_rgb LedStripRGB.nextMode (with_w LedStrip.turnOn g))).
Proof. intros Hon Hm. rewrite (short_press_rgb_on g Hon), Hm. reflexivity. Qed.

(** What a mode advance leaves in place. *)
Lemma advance_facts (h : Globals) :
  let h' := updateWidgets animated (with_rgb LedStripRGB.nextMode h) in
  rgb_mode_of h' = LedStripRGB.next (rgb_mode_of h) /\
  rgb_state_of h' = rgb_state_of h /\
  LedStripRGB.color (led_strip_rgb h') = LedStripRGB.color (led_strip_rgb h) /\
  led_strip_w h' = led_strip_w h /\
  last_color h' = last_color h.
Proof.
  cbv zeta. unfold rgb_mode_of, rgb_state_of, LedStripRGB.getMode.
  cbn [updateWidgets mqttSendStat publish with_rgb led_strip_rgb led_strip_w last_color].
  rewrite mode_nextMode, state_nextMode, color_nextMode. repeat split; reflexivity.
Qed.

(** X1: a short press never leaves the strip dark: whatever the state, the white
    channel or the RGB group is on afterwards. *)
Theorem short_press_never_dark (g : Globals) :
  w_state (short g) = ON \/ rgb_state_of (short g) = ON.
Proof.
  destruct (rgb_state_of g) eqn:Hrgb.
  - rewrite (short_press_rgb_on g Hrgb).
    destruct (LedStripRgbMode_eqb (rgb_mode_of g) NORMAL && (rgb_color_of g =? COLOR_WHITE)).
    + right. reflexivity.
    + destruct (LedStripRgbMode_eqb (rgb_mode_of g) FADE).
      * left. reflexivity.
      * right. unfold rgb_state_of in *.
        cbn [updateWidgets mqttSendStat publish with_rgb led_strip_rgb].
        rewrite state_nextMode. exact Hrgb.
  - unfold btnModeShortPressed, andThen. rewrite Hrgb.
    destruct (w_state g); [right|left]; reflexivity.
Qed.

(** X2: after a long press a short press brings back the white channel alone,
    at the intensity it had, and keeps the RGB mode and colour. *)
Theorem long_then_short_restores_white (g : Globals) :
  let g' := short (long g) in
  w_state g' = ON /\ rgb_state_of g' = OFF /\
  LedStrip.getIntensity (led_strip_w g') = LedStrip.getIntensity (led_strip_w g) /\
  rgb_mode_of g' = rgb_mode_of g /\
  LedStripRGB.color (led_strip_rgb g') = LedStripRGB.color (led_strip_rgb g) /\
  last_color g' = last_color g.
Proof. cbv zeta. repeat split; reflexivity. Qed.

(** X3: with the RGB group on in a mode other than Fade, and not showing the
    white sentinel in Normal mode, a short press moves to the next mode and
    changes nothing else of the two strips: in particular the white channel
    keeps the state it had. *)
Theorem short_press_advances_mode (g : Globals) :
  rgb_state_of g = ON ->
  rgb_mode_of g <> FADE ->
  ~ (rgb_mode_of g = NORMAL /\ rgb_color_of g = COLOR_WHITE) ->
  let g' := short g in
  rgb_mode_of g' = LedStripRGB.next (rgb_mode_of g) /\
  rgb_state_of g' = ON /\
  LedStripRGB.color (led_strip_rgb g') = LedStripRGB.color (led_strip_rgb g) /\
  LedStripRGB.speed (led_strip_rgb g') = LedStripRGB.speed (led_strip_rgb g) /\
  led_strip_w g' = led_strip_w g /\
  last_color g' = last_color g.
Proof.
  intros Hon Hfade Hwhite g'.
  assert (E : g' = updateWidgets animated (with_rgb LedStripRGB.nextMode g))
    by (apply short_press_advance_eq; assumption).
  destruct (advance_facts g) as (Hm & Hs & Hc & Hw & Hl).
  rewrite E. repeat split; try assumption.
  - rewrite Hs. exact Hon.
  - unfold LedStripRGB.nextMode, LedStripRGB.setMode.
    cbn [updateWidgets mqttSendStat publish with_rgb led_strip_rgb].
    destruct (LedStripRgbMode_eqb _ _); reflexivity.
Qed.

(** X4: with the RGB group on in Fade mode a short press turns the white channel
    on and the group off, and leaves the group in Normal mode with its
    colour, ready for the next round. *)
Theorem short_press_leaves_fade (g : Globals) :
  rgb_state_of g = ON -> rgb_mode_of g = FADE ->
  let g' := short g in
  w_state g' = ON /\ rgb_state_of g' = OFF /\ rgb_mode_of g' = NORMAL /\
  LedStripRGB.color (led_strip_rgb g') = LedStripRGB.color (led_strip_rgb g) /\
  LedStrip.getIntensity (led_strip_w g') = LedStrip.getIntensity (led_strip_w g).
Proof.
  intros Hon Hm g'.
  assert (E : g' = updateWidgets animated
                (with_rgb LedStripRGB.turnOff
                   (with_rgb LedStripRGB.nextMode (with_w LedStrip.turnOn g)))).
  { apply short_press_fade_eq; assumption. }
  rewrite E. unfold rgb_mode_of, LedStripRGB.getMode in *.
  cbn [updateWidgets mqttSendStat publish with_rgb with_w led_strip_rgb led_strip_w
       LedStripRGB.turnOff LedStripRGB.mode LedStripRGB.color].
  rewrite mode_nextMode, color_nextMode, Hm.
  repeat split; reflexivity.
Qed.

(** The facts the button cycle is built from. *)
Lemma show_white_facts (g : Globals) :
  0 <= COLOR_WHITE <= 16777215 ->
  w_state g = ON -> rgb_state_of g = OFF ->
  let g' := short g in
  w_state g' = ON /\ rgb_state_of g' = ON /\ rgb_mode_of g' = NORMAL /\
  rgb_color_of g' = COLOR_WHITE /\ last_color g' = rgb_color_of g /\
  LedStrip.getIntensity (led_strip_w g') = 255.
Proof.
  intros Hcw Hw Hrgb g'.
  assert (E : g' = _) by (apply short_press_from_white; assumption).
  rewrite E. unfold andThen, rgb_mode_of, rgb_color_of, LedStripRGB.getMode, LedStripRGB.getColor.
  cbn [updateWidgets mqttSendStat publish led_strip_rgb led_strip_w with_rgb with_w
       set_last_color last_color LedStripRGB.turnOn LedStripRGB.mode LedStripRGB.color].
  rewrite mode_setMode, color_setMode.
  repeat split; try reflexivity.
  - unfold w_state in *. exact Hw.
  - apply (getColor_setColor COLOR_WHITE (led_strip_rgb g) Hcw).
Qed.

Lemma restore_facts (g : Globals) :
  rgb_state_of g = ON -> rgb_mode_of g = NORMAL -> rgb_color_of g = COLOR_WHITE ->
  let g' := short g in
  w_state g' = OFF /\ rgb_state_of g' = ON /\ rgb_mode_of g' = NORMAL /\
  LedStripRGB.color (led_strip_rgb g') = unpackRGB (clamp 0 16777215 (last_color g)) /\
  last_color g' = last_color g /\
  LedStrip.getIntensity (led_strip_w g') = LedStrip.getIntensity (led_strip_w g).
Proof.
  intros Hon Hm Hc g'.
  assert (E : g' = _) by (apply short_press_from_rgb_white; assumption).
  rewrite E. repeat split; try reflexivity. exact Hm.
Qed.

(** X5: the button cycle closes: from white on and RGB off, six short presses
    (white sentinel, colour, Strobe, Flash, Fade, back) return to white on
    and RGB off, with the RGB colour kept and the mode back at Normal; the
    white intensity is then 255.  The stored colour must not be the white
    sentinel itself. *)
Theorem six_short_presses_close_cycle (g : Globals) :
  0 <= COLOR_WHITE <= 16777215 ->
  valid_rgb (LedStripRGB.color (led_strip_rgb g)) ->
  rgb_color_of g <> COLOR_WHITE ->
  w_state g = ON -> rgb_state_of g = OFF ->
  let g' := Nat.iter 6 short g in
  w_state g' = ON /\ rgb_state_of g' = OFF /\ rgb_mode_of g' = NORMAL /\
  LedStripRGB.color (led_strip_rgb g') = LedStripRGB.color (led_strip_rgb g) /\
  LedStrip.getIntensity (led_strip_w g') = 255.
Proof.
  intros Hcw Hval Hne Hw Hrgb. cbv zeta. cbn [Nat.iter nat_rect].
  set (g1 := short g). set (g2 := short g1). set (g3 := short g2).
  set (g4 := short g3). set (g5 := short g4).
  destruct (show_white_facts g Hcw Hw Hrgb) as (_ & On1 & M1 & C1 & L1 & I1).
  fold g1 in On1, M1, C1, L1, I1.
  destruct (restore_facts g1 On1 M1 C1) as (W2 & On2 & M2 & C2 & _ & I2).
  fold g2 in W2, On2, M2, C2, I2.
  rewrite L1 in C2.
  assert (C2' : LedStripRGB.color (led_strip_rgb g2) = LedStripRGB.color (led_strip_rgb g)).
  { rewrite C2. unfold rgb_color_of, LedStripRGB.getColor.
    rewrite clamp_id by (now apply packRGB_range). now apply unpackRGB_packRGB. }
  assert (N2 : ~ (rgb_mode_of g2 = NORMAL /\ rgb_color_of g2 = COLOR_WHITE)).
  { intros [_ Hc]. apply Hne. rewrite <- Hc.
    unfold rgb_color_of, LedStripRGB.getColor. now rewrite C2'. }
  assert (E3 : g3 = _) by (apply short_press_advance_eq; [exact On2|congruence|exact N2]).
  destruct (advance_facts g2) as (M3 & On3 & C3 & W3 & _). rewrite <- E3 in M3, On3, C3, W3.
  rewrite M2 in M3. rewrite On2 in On3. cbn [LedStripRGB.next] in M3.
  assert (E4 : g4 = _)
    by (apply short_press_advance_eq; [exact On3|congruence|intros [Hm _]; congruence]).
  destruct (advance_facts g3) as (M4 & On4 & C4 & W4 & _). rewrite <- E4 in M4, On4, C4, W4.
  rewrite M3 in M4. rewrite On3 in On4. cbn [LedStripRGB.next] in M4.
  assert (E5 : g5 = _)
    by (apply short_press_advance_eq; [exact On4|congruence|intros [Hm _]; congruence]).
  destruct (advance_facts g4) as (M5 & On5 & C5 & W5 & _). rewrite <- E5 in M5, On5, C5, W5.
  rewrite M4 in M5. rewrite On4 in On5. cbn [LedStripRGB.next] in M5.
  rewrite (short_press_fade_eq g5 On5 M5).
  unfold rgb_mode_of, LedStripRGB.getMode in *.
  cbn [updateWidgets mqttSendStat publish with_rgb with_w led_strip_rgb led_strip_w
       LedStripRGB.turnOff LedStripRGB.mode LedStripRGB.color].
  rewrite mode_nextMode, color_nextMode, M5, C5, C4, C3, C2', W5, W4, W3.
  repeat split; try reflexivity.
  change (LedStrip.getIntensity (led_strip_w g2) = 255). rewrite I2. exact I1.
Qed.

(** X6: a stuck button: while the RGB group is on in Normal mode showing the
    white sentinel and [last_color] is the white sentinel too (its initial
    value, line 147), no number of short presses leaves Normal mode; each
    one only rewrites the same colour. *)
Theorem white_sentinel_traps_short_press (g : Globals) (n : nat) :
  0 <= COLOR_WHITE <= 16777215 ->
  rgb_state_of g = ON -> rgb_mode_of g = NORMAL ->
  rgb_color_of g = COLOR_WHITE -> last_color g = COLOR_WHITE ->
  let g' := Nat.iter n short g in
  rgb_state_of g' = ON /\ rgb_mode_of g' = NORMAL /\
  rgb_color_of g' = COLOR_WHITE /\ last_color g' = COLOR_WHITE.
Proof.
  intros Hcw Hon Hm Hc Hl. cbv zeta.
  induction n as [|n IH].
  - cbn [Nat.iter nat_rect]. repeat split; assumption.
  - rewrite Nat.iter_succ. destruct IH as (On & M & C & L).
    destruct (restore_facts _ On M C) as (_ & On' & M' & C' & L' & _).
    repeat split; try assumption.
    + unfold rgb_color_of, LedStripRGB.getColor. rewrite C', L.
      rewrite clamp_id by exact Hcw. now apply packRGB_unpackRGB.
    + rewrite L'. exact L.
Qed.

(** X7: under button control the white channel and the RGB group are lit
    together only in the white-sentinel step: that property survives every
    sequence of short and long presses. *)
Theorem buttons_keep_overlap_only_white (evs : list ButtonEvent) (g : Globals) :
  0 <= COLOR_WHITE <= 16777215 ->
  overlap_only_white COLOR_WHITE g ->
  overlap_only_white COLOR_WHITE (run_buttons COLOR_WHITE animated evs g).
Proof.
  intros Hcw. revert g. unfold run_buttons.
  induction evs as [|ev evs IH]; intros g Hinv; cbn [fold_left]; [exact Hinv|].
  apply IH. destruct ev; cbn [btn_mode_loop].
  - destruct (rgb_state_of g) eqn:Hrgb.
    + destruct (LedStripRgbMode_eqb (rgb_mode_of g) NORMAL && (rgb_color_of g =? COLOR_WHITE))
        eqn:Hwhite.
      * apply andb_prop in Hwhite as [Hm Hc].
        assert (rgb_mode_of g = NORMAL) by (destruct (rgb_mode_of g); cbn in Hm; congruence).
        apply Z.eqb_eq in Hc.
        destruct (restore_facts g Hrgb H Hc) as (Woff & _).
        intros Hw. congruence.
      * destruct (rgb_mode_of g) eqn:Hm.
        -- cbn [LedStripRgbMode_eqb andb] in Hwhite. apply Z.eqb_neq in Hwhite.
           assert (Hoff : w_state g = OFF).
           { destruct (w_state g) eqn:Hw; [|reflexivity].
             destruct (Hinv Hw Hrgb) as [_ Hc]. contradiction. }
           rewrite short_press_advance_eq; [|exact Hrgb|congruence|intros [_ Hc]; contradiction].
           intros Hw. destruct (advance_facts g) as (_ & _ & _ & W & _).
           unfold w_state in *. rewrite W in Hw. congruence.
        -- assert (Hoff : w_state g = OFF).
           { destruct (w_state g) eqn:Hw; [|reflexivity].
             destruct (Hinv Hw Hrgb) as [Hn _]. congruence. }
           rewrite short_press_advance_eq; [|exact Hrgb|congruence|intros [Hn _]; congruence].
           intros Hw. destruct (advance_facts g) as (_ & _ & _ & W & _).
           unfold w_state in *. rewrite W in Hw. congruence.
        -- assert (Hoff : w_state g = OFF).
           { destruct (w_state g) eqn:Hw; [|reflexivity].
             destruct (Hinv Hw Hrgb) as [Hn _]. congruence. }
           rewrite short_press_advance_eq; [|exact Hrgb|congruence|intros [Hn _]; congruence].
           intros Hw. destruct (advance_facts g) as (_ & _ & _ & W & _).
           unfold w_state in *. rewrite W in Hw. congruence.
        -- rewrite (short_press_fade_eq g Hrgb Hm). intros _ Hon. discriminate Hon.
    + destruct (w_state g) eqn:Hw.
      * destruct (show_white_facts g Hcw Hw Hrgb) as (_ & _ & M & C & _).
        intros _ _. split; assumption.
      * unfold btnModeShortPressed, andThen. rewrite Hw, Hrgb.
        cbn [LedStripState_eqb andb]. intros _ Hon.
        unfold rgb_state_of in *.
        cbn [updateWidgets mqttSendStat publish with_w led_strip_rgb] in Hon. congruence.
  - intros Hw. discriminate Hw.
Qed.

End ShortPress.

(** ** More on the potentiometer handler *)

Section Potentiometer.

Variable animated : LedStripRGB.t -> RGBColor.

Lemma hysteresis_never_exceeded (reading : Z) :
  0 <= reading <= 65535 -> hysteresis_exceeded reading (reading / 4) = false.
Proof.
  intros Hr. unfold hysteresis_exceeded, THRESHOLD_FOR_TURN_ON.
  rewrite Z.quot_div_nonneg by lia. rewrite Z.sub_diag. reflexivity.
Qed.

(** Whether or not the reading counts as a change, the stored value is the
    quantized reading afterwards. *)
Lemma pot_stores_quantum (reading : Z) (g : Globals) :
  0 <= reading <= 65535 ->
  last_pot_color_value (readPotValue animated reading g) = reading / 4.
Proof.
  intros Hr. destruct (Z.eq_dec (reading / 4) (last_pot_color_value g)) as [E|Hne].
  - unfold readPotValue, readPotValue_with.
    replace (u16 reading) with reading by (unfold u16; symmetry; apply Z.mod_small; lia).
    rewrite Z.quot_div_nonneg by lia.
    rewrite E, Z.eqb_refl. reflexivity.
  - unfold readPotValue. rewrite readPotValue_changed by assumption.
    rewrite (hysteresis_never_exceeded reading Hr). cbv zeta.
    set (g0 := set_last_pot_color_value (reading / 4) g).
    destruct (rgb_state_of g0); cbn [LedStripState_eqb].
    + destruct (rgb_mode_of g0); reflexivity.
    + destruct (w_state g0); reflexivity.
Qed.

(** X8: noise below the quantum is ignored: once a reading has been handled, a
    further reading with the same quotient by 4 changes nothing and publishes
    nothing. *)
Theorem pot_same_quantum_ignored (r1 r2 : Z) (g : Globals) :
  0 <= r1 <= 65535 -> 0 <= r2 <= 65535 -> r1 / 4 = r2 / 4 ->
  readPotValue animated r2 (readPotValue animated r1 g) = readPotValue animated r1 g.
Proof.
  intros H1 H2 E.
  pose proof (pot_stores_quantum r1 g H1) as Hl.
  set (g1 := readPotValue animated r1 g) in *.
  unfold readPotValue, readPotValue_with.
  replace (u16 r2) with r2 by (unfold u16; symmetry; apply Z.mod_small; lia).
  rewrite Z.quot_div_nonneg by lia.
  rewrite Hl, E, Z.eqb_refl. reflexivity.
Qed.

(** X9: the potentiometer never switches the RGB group on or off, never changes
    its mode, never turns the white channel off and never touches
    [last_color], whatever [analogRead] returns. *)
Theorem pot_never_switches_rgb (reading : Z) (g : Globals) :
  let g' := readPotValue animated reading g in
  rgb_state_of g' = rgb_state_of g /\
  rgb_mode_of g' = rgb_mode_of g /\
  (w_state g = ON -> w_state g' = ON) /\
  last_color g' = last_color g.
Proof.
  cbv zeta. unfold readPotValue, readPotValue_with, wake_block, andThen.
  destruct (negb _); [|repeat split; auto].
  set (g0 := set_last_pot_color_value _ g).
  change (rgb_state_of g) with (rgb_state_of g0).
  change (rgb_mode_of g) with (rgb_mode_of g0).
  change (w_state g) with (w_state g0).
  change (last_color g) with (last_color g0).
  destruct (rgb_state_of g0) eqn:Hrgb; cbn [LedStripState_eqb].
  - destruct (rgb_mode_of g0) eqn:Hm;
      repeat split; intros; first [exact Hrgb | exact Hm | assumption | reflexivity].
  - destruct (w_state g0) eqn:Hw; cbn [LedStripState_eqb].
    + repeat split; intros; first [exact Hrgb | exact Hw | reflexivity].
    + destruct (hysteresis_exceeded _ _);
        repeat split; intros; first [exact Hrgb | reflexivity].
Qed.

End Potentiometer.

(** ** Strings *)

Lemma length_app (p s : string) :
  String.length (p ++ s) = (String.length p + String.length s)%nat.
Proof. induction p as [|c p IH]; cbn; [reflexivity|now rewrite IH]. Qed.

Lemma substring_skip (p s : string) (n m : nat) :
  String.substring (String.length p + n) m (p ++ s) = String.substring n m s.
Proof. induction p as [|c p IH]; cbn; [reflexivity|exact IH]. Qed.


(** A suffix test that fits in the tail of a topic does not see what comes
    before the tail. *)
Lemma endsWith_app (p s suf : string) :
  (String.length suf <= String.length s)%nat ->
  endsWith (p ++ s) suf = endsWith s suf.
Proof.
  intros Hk. unfold endsWith. rewrite length_app.
  destruct (Nat.leb_spec (String.length suf) (String.length p + String.length s)) as [_|H];
    [|lia].
  destruct (Nat.leb_spec (String.length suf) (String.length s)) as [_|H]; [|lia].
  replace (String.length p + String.length s - String.length suf)%nat
    with (String.length p + (String.length s - String.length suf))%nat by lia.
  now rewrite substring_skip.
Qed.












Lemma get_skip (p s : string) (n : nat) :
  String.get (String.length p + n) (p ++ s) = String.get n s.
Proof. induction p as [|c p IH]; cbn; [reflexivity|exact IH]. Qed.

(** A string that ends with a non-empty suffix ends with its last character. *)
Lemma endsWith_last (t suf : string) :
  (1 <= String.length suf)%nat -> endsWith t suf = true ->
  String.get (String.length t - 1) t = String.get (String.length suf - 1) suf.
Proof.
  unfold endsWith. intros Hk.
  destruct (Nat.leb_spec (String.length suf) (String.length t)) as [Hle|_]; [|discriminate].
  intros E. apply String.eqb_eq in E.
  rewrite <- E at 2.
  rewrite substring_correct1 by lia.
  f_equal. lia.
Qed.

(** ** More on the MQTT commands *)

Section Mqtt.

Variable animated : LedStripRGB.t -> RGBColor.

(** The command part of [mqttCallback] (lines 349-391) leaves the log of
    published messages alone; the handler then publishes once. *)
Lemma mqttCallback_publishes (topic payload : string) (g : Globals) :
  exists h,
    mqttCallback animated topic payload g = updateWidgets animated h /\
    published h = published g /\
    last_color h = last_color g /\
    last_pot_color_value h = last_pot_color_value g /\
    mqttLastMsg h = mqttLastMsg g.
Proof.
  unfold mqttCallback, andThen.
  repeat match goal with
         | |- context [if ?c then _ else _] => destruct c
         end;
    eexists; (split; [reflexivity|repeat split; reflexivity]).
Qed.

(** X10: every MQTT command, recognised or not, publishes exactly one message on
    the status topic, and its payload is the snapshot of the state the
    command leaves. *)
Theorem mqtt_command_publishes_new_state (topic payload : string) (g : Globals) :
  let g' := mqttCallback animated topic payload g in
  published g' = ("/stat/STATE", getState animated g') :: published g.
Proof.
  cbv zeta. destruct (mqttCallback_publishes topic payload g) as (h & E & Hp & _).
  rewrite E. unfold updateWidgets, mqttSendStat, publish. cbn [published].
  rewrite Hp. reflexivity.
Qed.


(** X12: whatever precedes it in the topic, the suffix "/rgb/mode" selects the
    mode branch: the RGB group is on afterwards for every payload, and the
    white channel, the colour and the speed are untouched. *)
Theorem mqtt_mode_topic_always_turns_on (prefix payload : string) (g : Globals) :
  let g' := mqttCallback animated (prefix ++ "/rgb/mode") payload g in
  rgb_state_of g' = ON /\
  led_strip_w g' = led_strip_w g /\
  LedStripRGB.color (led_strip_rgb g') = LedStripRGB.color (led_strip_rgb g) /\
  LedStripRGB.speed (led_strip_rgb g') = LedStripRGB.speed (led_strip_rgb g).
Proof.
  cbv zeta. unfold mqttCallback.
  rewrite (endsWith_app prefix "/rgb/mode" "/white") by (cbn; lia).
  rewrite (endsWith_app prefix "/rgb/mode" "/rgb") by (cbn; lia).
  rewrite (endsWith_app prefix "/rgb/mode" "/rgb/mode") by (cbn; lia).
  assert (Hi : endsWith (prefix ++ "/rgb/mode") "/white/intensity" = false).
  { destruct (endsWith _ "/white/intensity") eqn:E; [|reflexivity].
    apply endsWith_last in E; [|cbn; lia].
    rewrite length_app in E.
    replace (String.length prefix + String.length "/rgb/mode" - 1)%nat
      with (String.length prefix + 8)%nat in E by (cbn; lia).
    rewrite get_skip in E. discriminate E. }
  rewrite Hi.
  replace (endsWith "/rgb/mode" "/white") with false by reflexivity.
  replace (endsWith "/rgb/mode" "/rgb") with false by reflexivity.
  replace (endsWith "/rgb/mode" "/rgb/mode") with true by reflexivity.
  unfold andThen.
  repeat match goal with
         | |- context [if ?c then _ else _] => destruct c
         end.
  all: cbn [updateWidgets mqttSendStat publish with_rgb with_w led_strip_rgb led_strip_w
            LedStripRGB.turnOn LedStripRGB.color LedStripRGB.speed].
  all: unfold rgb_state_of; cbn [led_strip_rgb LedStripRGB.getState LedStripRGB.turnOn LedStripRGB.isOn].
  all: rewrite ?color_setMode; repeat split; try reflexivity.
  all: unfold LedStripRGB.setMode; destruct (LedStripRgbMode_eqb _ _); reflexivity.
Qed.



End Mqtt.


(** ** More on the colour mixer *)

Lemma all_below_spec (n : nat) (p : Z -> bool) :
  all_below n p = true -> forall v, 0 <= v < Z.of_nat n -> p v = true.
Proof.
  unfold all_below. intros H v Hv. rewrite forallb_forall in H.
  apply H. apply in_map_iff. exists (Z.to_nat v). split; [lia|].
  apply in_seq. lia.
Qed.

(** X14: over the whole 10-bit range the mixer keeps one channel at the floor 1
    and shares 256 between the other two, so the components add up to 257
    and none is 0; the exceptions are the seven inputs where [256 - value]
    wraps, on which they add up to 1. *)
Theorem color_mixer_constant_sum (v : Z) :
  0 <= v <= 1023 ->
  let c := mixed v in
  (In v dark_inputs -> red c + green c + blue c = 1) /\
  (~ In v dark_inputs ->
   red c + green c + blue c = 257 /\ 1 <= red c /\ 1 <= green c /\ 1 <= blue c).
Proof.
  intros Hv.
  pose (p := fun v => let c := mixed v in
               if existsb (Z.eqb v) dark_inputs
               then red c + green c + blue c =? 1
               else (red c + green c + blue c =? 257) &&
                    (1 <=? red c) && (1 <=? green c) && (1 <=? blue c)).
  assert (H : p v = true)
    by (apply (all_below_spec 1024); [vm_compute; reflexivity|lia]).
  subst p. cbv beta zeta in H. cbv zeta.
  destruct (existsb (Z.eqb v) dark_inputs) eqn:E.
  - apply existsb_exists in E as (x & Hin & Hx). apply Z.eqb_eq in Hx. subst x.
    split; [intros _; lia|intros Hn; contradiction].
  - split.
    + intros Hin. exfalso.
      assert (existsb (Z.eqb v) dark_inputs = true)
        by (apply existsb_exists; exists v; split; [exact Hin|apply Z.eqb_refl]).
      congruence.
    + intros _. lia.
Qed.

(** ** Periodic telemetry *)

Section Telemetry.

Variable animated : LedStripRGB.t -> RGBColor.

(** X15: [mqttSendTele] sends nothing during the first five minutes after start
    ([mqttLastMsg] is 0 then), and once it has sent a message it sends none
    for the next 300000 ms; times are [long] values of [millis()]. *)
Theorem telemetry_rate_limited (now1 now2 : Z) (g : Globals) :
  0 <= mqttLastMsg g -> 0 <= now1 <= now2 -> now2 < 2147483648 ->
  (mqttLastMsg g = 0 -> now1 <= 300000 -> mqttSendTele animated now1 g = g) /\
  (now1 - mqttLastMsg g > 300000 -> now2 <= now1 + 300000 ->
   mqttLastMsg (mqttSendTele animated now1 g) = now1 /\
   mqttSendTele animated now2 (mqttSendTele animated now1 g)
   = mqttSendTele animated now1 g).
Proof.
  intros H0 H12 Hmax. unfold mqttSendTele, MQTT_TELEMETRY_INTERVAL. split.
  - intros Hz Hn. rewrite Hz.
    destruct (Z.gtb_spec (now1 - 0) 300000); [lia|reflexivity].
  - intros Hs Hn.
    destruct (Z.gtb_spec (now1 - mqttLastMsg g) 300000); [|lia].
    cbn [publish set_mqttLastMsg mqttLastMsg].
    destruct (Z.gtb_spec (now2 - now1) 300000); [lia|]. split; reflexivity.
Qed.

(** X16: the colour field of the snapshot has the stated seven characters exactly
    when every component shown is at least 16; it always starts with '#' and
    is never shorter than four characters. *)
Theorem telemetry_color_length (g : Globals) :
  let c := getRGBColor animated (led_strip_rgb g) in
  let text := rgb_color (getState animated g) in
  (String.length text = 7%nat <-> 16 <= red c /\ 16 <= green c /\ 16 <= blue c) /\
  (4 <= String.length text <= 7)%nat /\
  String.get 0 text = Some "#"%char.
Proof.
  cbv zeta. unfold getState. cbn [rgb_color].
  set (c := getRGBColor animated (led_strip_rgb g)).
  cbn [append String.length String.get]. rewrite !length_app.
  unfold String_HEX.
  destruct (Z.ltb_spec (red c) 16); destruct (Z.ltb_spec (green c) 16);
    destruct (Z.ltb_spec (blue c) 16); cbn [String.length];
    (split; [split; [intros E; try lia; discriminate E|intros Hc; try lia; reflexivity]
            |split; [lia|reflexivity]]).
Qed.

End Telemetry.

Lemma telemetry_rate_limited_witness :
  let g := mqttSendTele still 300001 WhiteOn in
  mqttSendTele still 300000 WhiteOn = WhiteOn /\
  mqttLastMsg g = 300001 /\
  mqttSendTele still 600001 g = g.
Proof.
  cbv zeta.
  assert (H0 : 0 <= mqttLastMsg WhiteOn) by (cbn; lia).
  pose proof (telemetry_rate_limited still 300000 300000 WhiteOn H0
                ltac:(lia) ltac:(lia)) as (Hboot & _).
  pose proof (telemetry_rate_limited still 300001 600001 WhiteOn H0
                ltac:(lia) ltac:(lia)) as (_ & Hnext).
  split; [apply Hboot; [reflexivity|lia]|].
  apply Hnext; cbn; lia.
Defined.

(** ** Blynk writes *)

Section Blynk.

Variable COLOR_WHITE : Z.
Variable animated : LedStripRGB.t -> RGBColor.

(** X17: the zeRGBa widget (V0): the stored colour is made of the low bytes of
    the three parameters, so byte-sized parameters are stored as they are;
    the write changes neither the mode nor the on/off state of either strip. *)
Theorem blynk_color_write (r gr b : Z) (g : Globals) :
  let g' := blynkWrite COLOR_WHITE animated (V0 r gr b) g in
  LedStripRGB.color (led_strip_rgb g') = mkRGB (r mod 256) (gr mod 256) (b mod 256) /\
  rgb_state_of g' = rgb_state_of g /\
  rgb_mode_of g' = rgb_mode_of g /\
  led_strip_w g' = led_strip_w g.
Proof.
  cbv zeta. cbn [blynkWrite]. unfold andThen.
  cbn [updateWidgets mqttSendStat publish with_rgb led_strip_rgb led_strip_w
       LedStripRGB.setColor LedStripRGB.color].
  split; [|repeat split; reflexivity].
  pose proof (land_255_range r) as Hr. pose proof (land_255_range gr) as Hg.
  pose proof (land_255_range b) as Hb.
  rewrite shiftl_16, shiftl_8 in *.
  assert (Hs : 0 <= Z.land r 255 * 65536 + Z.land gr 255 * 256 + Z.land b 255 <= 16777215)
    by lia.
  unfold u32. rewrite Z.mod_small by lia. rewrite clamp_id by exact Hs.
  rewrite <- shiftl_16, <- shiftl_8.
  change (Z.shiftl (Z.land r 255) 16 + Z.shiftl (Z.land gr 255) 8 + Z.land b 255)
    with (packRGB (mkRGB (Z.land r 255) (Z.land gr 255) (Z.land b 255))).
  rewrite unpackRGB_packRGB by (unfold valid_rgb; cbn [red green blue]; lia).
  now rewrite !land_255_mod.
Qed.

(** X18: the mode menu (V2): options 1 to 4 select Normal, Strobe, Flash and Fade
    and turn the RGB group on; any other option leaves both strips as they
    were. *)
Theorem blynk_menu_write (n : Z) (g : Globals) :
  let g' := blynkWrite COLOR_WHITE animated (V2 n) g in
  (1 <= n <= 4 ->
   rgb_state_of g' = ON /\
   rgb_mode_of g' = nth (Z.to_nat (n - 1)) [NORMAL; STROBE; FLASH; FADE] NORMAL /\
   LedStripRGB.color (led_strip_rgb g') = LedStripRGB.color (led_strip_rgb g)) /\
  (n < 1 \/ 4 < n -> led_strip_rgb g' = led_strip_rgb g) /\
  led_strip_w g' = led_strip_w g.
Proof.
  cbv zeta. cbn [blynkWrite]. unfold andThen, rgb_mode_of, LedStripRGB.getMode.
  destruct (Z.eqb_spec n 1) as [->|N1]; [|destruct (Z.eqb_spec n 2) as [->|N2];
    [|destruct (Z.eqb_spec n 3) as [->|N3]; [|destruct (Z.eqb_spec n 4) as [->|N4]]]];
    cbn [updateWidgets mqttSendStat publish with_rgb led_strip_rgb led_strip_w
         LedStripRGB.turnOn LedStripRGB.mode LedStripRGB.color];
    rewrite ?mode_setMode, ?color_setMode;
    (split; [intros Hn|split; [intros Hn|reflexivity]]);
    try lia; try (repeat split; reflexivity).
Qed.

End Blynk.

(** ** Start-up and the serial console *)



Section Console.

Variables COLOR_RED COLOR_GREEN COLOR_BLUE DEFAULT_COLOR COLOR_WHITE : Z.
Variable animated : LedStripRGB.t -> RGBColor.
Variable rgb_tick : Z -> LedStripRGB.t -> LedStripRGB.t.

(** X19: whatever state the two objects start in and whatever the animation tick
    does during the LED test, [setup] ends with the white channel on, the
    RGB group off and [DEFAULT_COLOR] stored, without publishing anything;
    the first short press then saves [DEFAULT_COLOR] in [last_color] and
    shows the white sentinel in Normal mode. *)
Theorem setup_leaves_white_on (t1 t2 t3 : Z) (g : Globals) :
  0 <= DEFAULT_COLOR <= 16777215 ->
  0 <= COLOR_WHITE <= 16777215 ->
  let g' := setup COLOR_RED COLOR_GREEN COLOR_BLUE DEFAULT_COLOR rgb_tick t1 t2 t3 g in
  let g1 := btnModeShortPressed COLOR_WHITE animated g' in
  w_state g' = ON /\ rgb_state_of g' = OFF /\ rgb_color_of g' = DEFAULT_COLOR /\
  LedStrip.getIntensity (led_strip_w g') = LedStrip.getIntensity (led_strip_w g) /\
  published g' = published g /\
  rgb_state_of g1 = ON /\ rgb_mode_of g1 = NORMAL /\
  rgb_color_of g1 = COLOR_WHITE /\ last_color g1 = DEFAULT_COLOR.
Proof.
  intros Hd Hcw g' g1.
  assert (Hw : w_state g' = ON) by reflexivity.
  assert (Hrgb : rgb_state_of g' = OFF) by reflexivity.
  assert (Hc : rgb_color_of g' = DEFAULT_COLOR).
  { unfold g', setup, andThen, rgb_color_of. cbn [with_rgb led_strip_rgb].
    apply getColor_setColor. exact Hd. }
  destruct (show_white_facts COLOR_WHITE animated g' Hcw Hw Hrgb)
    as (_ & On1 & M1 & C1 & L1 & _).
  fold g1 in On1, M1, C1, L1. rewrite Hc in L1.
  repeat split; solve [assumption | reflexivity].
Qed.



(** So "color 255" sets the colour 55, and "color: 255" the colour 255. *)
Example serial_color_offset :
  rgb_color_of (serialLoop COLOR_WHITE animated (Some "color 255") WhiteOn) = 55 /\
  rgb_color_of (serialLoop COLOR_WHITE animated (Some "color: 255") WhiteOn) = 255.
Proof. split; reflexivity. Qed.

End Console.

Lemma setup_leaves_white_on_witness :
  let g' := setup 16711680 65280 255 8388736 (fun _ s => s) 500 1000 1500 AllOff in
  w_state g' = ON /\ rgb_state_of g' = OFF /\ rgb_color_of g' = 8388736.
Proof.
  cbv zeta.
  pose proof (setup_leaves_white_on 16711680 65280 255 8388736 16777215 still
                (fun _ s => s) 500 1000 1500 AllOff ltac:(lia) ltac:(lia))
    as (Hw & Hrgb & Hc & _).
  split; [exact Hw|split; [exact Hrgb|exact Hc]].
Defined.

(** ** More instances of the conditional statements *)

Lemma short_press_advances_mode_witness :
  let g := RgbOn STROBE (mkRGB 1 2 3) in
  rgb_mode_of (btnModeShortPressed 16777215 still g) = FLASH /\
  rgb_state_of (btnModeShortPressed 16777215 still g) = ON.
Proof.
  cbv zeta.
  assert (Hf : rgb_mode_of (RgbOn STROBE (mkRGB 1 2 3)) <> FADE) by discriminate.
  assert (Hn : ~ (rgb_mode_of (RgbOn STROBE (mkRGB 1 2 3)) = NORMAL /\
                  rgb_color_of (RgbOn STROBE (mkRGB 1 2 3)) = 16777215))
    by (intros [H _]; discriminate H).
  pose proof (short_press_advances_mode 16777215 still (RgbOn STROBE (mkRGB 1 2 3))
                eq_refl Hf Hn) as (Hm & Hs & _).
  split; [exact Hm|exact Hs].
Defined.

Lemma short_press_leaves_fade_witness :
  let g := RgbOn FADE (mkRGB 1 2 3) in
  w_state (btnModeShortPressed 16777215 still g) = ON /\
  rgb_state_of (btnModeShortPressed 16777215 still g) = OFF /\
  rgb_mode_of (btnModeShortPressed 16777215 still g) = NORMAL.
Proof.
  cbv zeta.
  pose proof (short_press_leaves_fade 16777215 still (RgbOn FADE (mkRGB 1 2 3))
                eq_refl eq_refl) as (Hw & Hs & Hm & _).
  split; [exact Hw|split; [exact Hs|exact Hm]].
Defined.

Lemma six_short_presses_close_cycle_witness :
  let g' := Nat.iter 6 (btnModeShortPressed 16777215 still) WhiteOn in
  w_state g' = ON /\ rgb_state_of g' = OFF /\ rgb_mode_of g' = NORMAL /\
  LedStripRGB.color (led_strip_rgb g') = mkRGB 128 0 128 /\
  LedStrip.getIntensity (led_strip_w g') = 255.
Proof.
  assert (Hc : 0 <= 16777215 <= 16777215) by lia.
  assert (Hv : valid_rgb (LedStripRGB.color (led_strip_rgb WhiteOn)))
    by (unfold valid_rgb; cbn; lia).
  assert (Hne : rgb_color_of WhiteOn <> 16777215) by (vm_compute; discriminate).
  exact (six_short_presses_close_cycle 16777215 still WhiteOn Hc Hv Hne eq_refl eq_refl).
Defined.

Lemma white_sentinel_traps_short_press_witness :
  let g := RgbOn NORMAL (mkRGB 255 255 255) in
  let g' := Nat.iter 5 (btnModeShortPressed 16777215 still) g in
  rgb_state_of g' = ON /\ rgb_mode_of g' = NORMAL /\
  rgb_color_of g' = 16777215 /\ last_color g' = 16777215.
Proof.
  assert (Hc : 0 <= 16777215 <= 16777215) by lia.
  exact (white_sentinel_traps_short_press 16777215 still
           (RgbOn NORMAL (mkRGB 255 255 255)) 5 Hc eq_refl eq_refl eq_refl eq_refl).
Defined.

Lemma buttons_keep_overlap_only_white_witness :
  overlap_only_white 16777215 WhiteOn /\
  overlap_only_white 16777215
    (run_buttons 16777215 still [ShortPress; ShortPress; LongPress; ShortPress] WhiteOn).
Proof.
  assert (Hc : 0 <= 16777215 <= 16777215) by lia.
  assert (H0 : overlap_only_white 16777215 WhiteOn)
    by (intros _ H; discriminate H).
  split; [exact H0|].
  exact (buttons_keep_overlap_only_white 16777215 still
           [ShortPress; ShortPress; LongPress; ShortPress] WhiteOn Hc H0).
Defined.

Lemma pot_same_quantum_ignored_witness :
  readPotValue still 803 (readPotValue still 800 WhiteOn) = readPotValue still 800 WhiteOn.
Proof.
  assert (H1 : 0 <= 800 <= 65535) by lia.
  assert (H2 : 0 <= 803 <= 65535) by lia.
  exact (pot_same_quantum_ignored still 800 803 WhiteOn H1 H2 eq_refl).
Defined.

Lemma color_mixer_constant_sum_witness :
  (let c := mixed 512 in red c + green c + blue c = 257) /\
  (let c := mixed 341 in red c + green c + blue c = 1).
Proof.
  assert (H1 : 0 <= 512 <= 1023) by lia.
  assert (H2 : 0 <= 341 <= 1023) by lia.
  split.
  - apply (color_mixer_constant_sum 512 H1).
    unfold dark_inputs. cbn [In]. intros H.
    repeat (destruct H as [H|H]; [discriminate H|]). exact H.
  - apply (color_mixer_constant_sum 341 H2).
    unfold dark_inputs. cbn [In]. right. right. left. reflexivity.
Defined.

Lemma blynk_menu_write_witness :
  rgb_mode_of (blynkWrite 16777215 still (V2 3) WhiteOn) = FLASH /\
  led_strip_rgb (blynkWrite 16777215 still (V2 0) WhiteOn) = led_strip_rgb WhiteOn.
Proof.
  pose proof (blynk_menu_write 16777215 still 3 WhiteOn) as (Hin & _).
  pose proof (blynk_menu_write 16777215 still 0 WhiteOn) as (_ & Hout & _).
  split.
  - exact (proj1 (proj2 (Hin ltac:(lia)))).
  - apply Hout. lia.
Defined.

(** ** Publishing and the quiet iteration *)

Section Publishing.

Variable COLOR_WHITE : Z.
Variable animated : LedStripRGB.t -> RGBColor.
Variable rgb_tick : Z -> LedStripRGB.t -> LedStripRGB.t.

(** X21: each button callback publishes exactly one status message, and its
    payload is the snapshot of the state the callback leaves. *)
Theorem button_press_publishes_new_state (ev : ButtonEvent) (g : Globals) :
  let g' := btn_mode_loop COLOR_WHITE animated (Some ev) g in
  published g' = ("/stat/STATE", getState animated g') :: published g.
Proof.
  cbv zeta. destruct ev; cbn [btn_mode_loop]; [|reflexivity].
  unfold btnModeShortPressed, andThen.
  repeat match goal with
         | |- context [if ?c then _ else _] => destruct c
         end; reflexivity.
Qed.


End Publishing.


(** ** Numeric MQTT payloads *)




Section MqttNumbers.

Variable animated : LedStripRGB.t -> RGBColor.


End MqttNumbers.

